(** * GPT-SoVITS server: request handlers and temporary artifacts

    A shallow embedding of [server/app.py] (the FastAPI handlers [predict]
    and [batch_predict] and the cleanup task [remove_temp_file]) and of the
    weight-swap part of [server/webui.py] ([get_tts_wav], [LANG_DICT]).

    The handlers are straight-line Python that mutates three things: the
    filesystem (temporary WAV and zip files), the global [tts_inference]
    object, and the per-request [background_tasks] list.  They are embedded
    in a state-and-exception monad over a [world] record.  The inference
    engine ([src.inference.TTSInference]) and the preset table
    ([server/example.json]) are not part of the sources at hand and are
    taken as parameters. *)

From stdpp Require Import gmap strings list fin_maps pretty.
From Stdlib Require Import ZArith QArith Ascii.

Local Open Scope string_scope.
Local Open Scope Z_scope.
Local Open Scope list_scope.

(** ** Python values and exceptions *)

(** An [Optional[str]]: [None] or a string. *)
Definition pyval : Type := option string.

(** [str(v)] as used by an f-string on a key. *)
Definition py_str (v : pyval) : string :=
  match v with
  | Some s => s
  | None => "None"
  end.

(** The exceptions that occur in the handlers.  All of them are subclasses
    of Python's [Exception]; [OtherException] stands for any further
    [Exception] subclass an external library raises, with its class name and
    message. *)
Inductive exn : Type :=
  | KeyError (key : pyval)
  | HTTPException (status_code : Z) (detail : string)
  | UnboundLocalError (name : string)
  | FileNotFoundError (path : string)
  | FileExistsError (path : string)
  | IsADirectoryError (path : string)
  | NotADirectoryError (path : string)
  | OSError (message : string)
  | OtherException (class_name message : string).

#[global] Instance exn_eq_dec : EqDecision exn.
Proof. solve_decision. Defined.

(** ** State and exception monad

    A computation reads and writes a state [S] and either returns a value or
    raises; the state written before a [raise] is kept, as in Python. *)
Definition M (S A : Type) : Type := S -> (exn + A) * S.

Definition ret {S A} (a : A) : M S A := fun s => (inr a, s).

Definition raise {S A} (e : exn) : M S A := fun s => (inl e, s).

Definition bind {S A B} (m : M S A) (k : A -> M S B) : M S B :=
  fun s =>
    match m s with
    | (inr a, s') => k a s'
    | (inl e, s') => (inl e, s')
    end.

(** [try: m except Exception as e: h e] *)
Definition try_except {S A} (m : M S A) (h : exn -> M S A) : M S A :=
  fun s =>
    match m s with
    | (inr a, s') => (inr a, s')
    | (inl e, s') => h e s'
    end.

(** [try: m except KeyError as e: h e.args[0]]; other exceptions propagate. *)
Definition try_except_KeyError {S A} (m : M S A) (h : pyval -> M S A) : M S A :=
  try_except m (fun e => match e with KeyError k => h k | _ => raise e end).

Definition gets {S A} (f : S -> A) : M S A := fun s => (inr (f s), s).

Definition modify {S} (f : S -> S) : M S unit := fun s => (inr tt, f s).

Declare Scope py_scope.
Delimit Scope py_scope with py.

Notation "'let*' x ':=' c1 'in' c2" := (bind c1 (fun x => c2))
  (at level 10, x pattern, c1 at level 100, c2 at level 200) : py_scope.

(** [d[k]] on a dict: the value, or [KeyError(k)]. *)
Definition getitem {S V} (d : gmap string V) (k : pyval) : M S V :=
  match k with
  | Some s =>
      match d !! s with
      | Some v => ret v
      | None => raise (KeyError k)
      end
  | None => raise (KeyError None)
  end.

(** ** [os.path] on POSIX path strings *)
Module PosixPath.

Definition is_sep (c : ascii) : bool := Ascii.eqb c "/"%char.

(** [(p[:i], p[i:])] for [i = p.rfind('/') + 1]. *)
Fixpoint rsplit (p : string) : string * string :=
  match p with
  | EmptyString => (EmptyString, EmptyString)
  | String c r =>
      match rsplit r with
      | (EmptyString, t) =>
          if is_sep c then (String c EmptyString, t)
          else (EmptyString, String c t)
      | (h, t) => (String c h, t)
      end
  end.

(** [s.rstrip('/')] *)
Fixpoint rstrip (s : string) : string :=
  match s with
  | EmptyString => EmptyString
  | String c r =>
      match rstrip r with
      | EmptyString => if is_sep c then EmptyString else String c EmptyString
      | r' => String c r'
      end
  end.

(** [s == '/' * len(s)] *)
Fixpoint all_sep (s : string) : bool :=
  match s with
  | EmptyString => true
  | String c r => is_sep c && all_sep r
  end.

Definition basename (p : string) : string := snd (rsplit p).

Definition dirname (p : string) : string :=
  let head := fst (rsplit p) in
  match head with
  | EmptyString => head
  | _ => if all_sep head then head else rstrip head
  end.

Definition startswith_sep (s : string) : bool :=
  match s with
  | String c _ => is_sep c
  | EmptyString => false
  end.

Fixpoint endswith_sep (s : string) : bool :=
  match s with
  | EmptyString => false
  | String c EmptyString => is_sep c
  | String _ r => endswith_sep r
  end.

(** [os.path.join(a, b)] *)
Definition join (a b : string) : string :=
  if startswith_sep b then b
  else match a with
       | EmptyString => b
       | _ => if endswith_sep a then a +:+ b else a +:+ "/" +:+ b
       end.

End PosixPath.

(** ** Filesystem

    Paths are compared as strings: [.] and [..] components, repeated or
    trailing slashes, links and permissions are outside the model. *)

(** What a regular file holds: nothing yet, the WAV encoding of a sample
    rate and a sample buffer, or a zip archive as its list of entries
    (archive name and data) in the order they were written. *)
#[warnings="-register-all"]
Inductive content : Type :=
  | Empty
  | Wav (sr : Z) (audio : list Z)
  | Zip (entries : list (string * content)).

Inductive node : Type :=
  | File (c : content)
  | Dir.

Abbreviation filesystem := (gmap string node).

Module OS.
Import PosixPath.

Definition isdir (fs : filesystem) (path : string) : bool :=
  match fs !! path with
  | Some Dir => true
  | _ => false
  end.

(** Whether [k] is [path] itself or lies below it. *)
Definition under (path k : string) : bool :=
  String.eqb k path || String.prefix (path +:+ "/") k.

(** [os.remove(path)] *)
Definition remove (path : string) : M filesystem unit :=
  fun fs =>
    match fs !! path with
    | Some (File _) => (inr tt, delete path fs)
    | Some Dir => (inl (IsADirectoryError path), fs)
    | None => (inl (FileNotFoundError path), fs)
    end.

(** [shutil.rmtree(path)] *)
Definition rmtree (path : string) : M filesystem unit :=
  fun fs =>
    match fs !! path with
    | Some Dir =>
        (inr tt, filter (fun kv => under path kv.1 = false) fs)
    | Some (File _) => (inl (NotADirectoryError path), fs)
    | None => (inl (FileNotFoundError path), fs)
    end.

(** The error of creating or replacing an entry [path], if any: the entry
    is a directory, or its parent is missing or not a directory. *)
Definition entry_error (fs : filesystem) (path : string) : option exn :=
  match fs !! path with
  | Some Dir => Some (IsADirectoryError path)
  | _ =>
      match fs !! dirname path with
      | Some Dir => None
      | Some (File _) => Some (NotADirectoryError path)
      | None => Some (FileNotFoundError path)
      end
  end.

(** [os.rename(src, dst)] for a regular file [src]; an existing regular
    file [dst] is replaced silently.  The handlers only rename files they
    have just written; renaming a directory is not modelled and reported
    as an [OSError]. *)
Definition rename (src dst : string) : M filesystem unit :=
  fun fs =>
    match fs !! src with
    | None => (inl (FileNotFoundError src), fs)
    | Some Dir => (inl (OSError "rename of a directory"), fs)
    | Some (File c) =>
        match entry_error fs dst with
        | Some e => (inl e, fs)
        | None => (inr tt, <[dst := File c]> (delete src fs))
        end
    end.

(** [sf.write(path, audio, sr, 'PCM_24')]: creates or truncates [path]. *)
Definition sf_write (path : string) (audio : list Z) (sr : Z)
  : M filesystem unit :=
  fun fs =>
    match entry_error fs path with
    | Some _ => (inl (OtherException "LibsndfileError" path), fs)
    | None => (inr tt, <[path := File (Wav sr audio)]> fs)
    end.

(** One [zipf.write(audio_file, os.path.basename(audio_file))]: the entry
    that is appended to the archive. *)
Definition zip_entry (fs : filesystem) (audio_file : string)
  : exn + (string * content) :=
  match fs !! audio_file with
  | Some (File c) => inr (basename audio_file, c)
  | Some Dir => inr (basename audio_file +:+ "/", Empty)
  | None => inl (FileNotFoundError audio_file)
  end.

(** The entries written until the first failing [zipf.write]. *)
Fixpoint zip_entries (fs : filesystem) (audio_files : list string)
  : option exn * list (string * content) :=
  match audio_files with
  | [] => (None, [])
  | f :: rest =>
      match zip_entry fs f with
      | inl e => (Some e, [])
      | inr entry =>
          let '(err, entries) := zip_entries fs rest in
          (err, entry :: entries)
      end
  end.

(** [with zipfile.ZipFile(name, 'w') as zipf: for f in audio_files:
    zipf.write(f, basename(f))].  Leaving the [with] block closes the
    archive, also when a write raised. *)
Definition zip_write (name : string) (audio_files : list string)
  : M filesystem unit :=
  fun fs =>
    let '(err, entries) := zip_entries fs audio_files in
    (match err with Some e => inl e | None => inr tt end,
     <[name := File (Zip entries)]> fs).

End OS.

(** ** The request, the engine and the host *)

(** [class TTSModelRequest(BaseModel)], after validation.  The two sampling
    floats are only handed on to the engine; they are kept as rationals. *)
Record TTSModelRequest : Type := {
  character_name : pyval;
  ref_audio_path : pyval;
  sovits_weights : pyval;
  gpt_weights : pyval;
  prompt_text : pyval;
  prompt_language : pyval;
  text : string;
  text_language : string;
  how_to_cut : pyval;
  top_k : option Z;
  top_p : option Q;
  temperature : option Q;
  ref_free : option bool;
  zip_filename : pyval
}.

(** The arguments of one [tts_inference.infer(...)] call, in call order. *)
Record infer_args : Type := {
  arg_ref_wav_path : pyval;
  arg_prompt_text : pyval;
  arg_prompt_language : string;
  arg_text : string;
  arg_text_language : string;
  arg_how_to_cut : pyval;
  arg_top_k : option Z;
  arg_top_p : option Q;
  arg_temperature : option Q;
  arg_ref_free : option bool
}.

(** The interface of [src.inference.TTSInference] that the server uses: the
    two attributes naming the loaded weights, the two weight loaders, and
    [infer] followed by [next] on the generator it returns, which gives the
    first (sample rate, samples) pair.  Every operation may raise and may
    change the engine. *)
Class TTSInference : Type := {
  engine : Type;
  sovits_model : engine -> pyval;
  gpt_model : engine -> pyval;
  change_sovits_weights : pyval -> M engine unit;
  change_gpt_weights : pyval -> M engine unit;
  infer : infer_args -> M engine (Z * list Z)
}.

(** What the server reads from its surroundings: the preset table of
    [server/example.json] (character name, then field name), the model tables
    of the two [ModelHandler]s (speaker, then model name, giving a path),
    [tempfile.gettempdir()], the sequence of random names [tempfile] draws,
    and [str] on an exception. *)
Class Host : Type := {
  example_json : gmap string (gmap string pyval);
  sovits_models_info : gmap string (gmap string string);
  gpt_models_info : gmap string (gmap string string);
  gettempdir : string;
  candidate_name : nat -> string;
  exn_str : exn -> string
}.

(** [LANG_DICT] of [server/webui.py]. *)
Definition LANG_DICT : gmap string string :=
  <["中文" := "all_zh"]> (<["英文" := "en"]> (<["日文" := "all_ja"]>
  (<["中英混合" := "zh"]> (<["日英混合" := "ja"]>
  (<["多语种混合" := "auto"]> ∅))))).

(** A call made on the engine object. *)
Inductive engine_call : Type :=
  | ChangeSovits (path : pyval)
  | ChangeGpt (path : pyval)
  | Infer (args : infer_args).

(** A record written by [root_logger.error(message, exc_info=True)]: the
    message and the exception whose traceback is attached. *)
Record log_record : Type := {
  levelname : string;
  message : string;
  exc_info : option exn
}.

(** A task added to [background_tasks]; the handlers only add
    [remove_temp_file] with a path. *)
Inductive task : Type :=
  | RemoveTempFile (path : string).

(** What a handler returns: a [FileResponse], or the pair of an error
    object and a status number of its [except KeyError] branch. *)
Inductive response : Type :=
  | FileResponse (path media_type : string)
  | ErrorTuple (error : string) (status : Z).

(** [remove_temp_file] of [server/app.py]. *)
Definition remove_temp_file (path : string) : M filesystem unit :=
  fun fs =>
    if OS.isdir fs path then OS.rmtree path fs
    else OS.remove path fs.

(** [TMP_MAX] of [tempfile]. *)
Definition TMP_MAX : nat := Z.to_nat 10000.

Section Server.
Context `{!TTSInference} `{!Host}.
Import PosixPath.
Local Open Scope py_scope.

(** The state the handlers act on.  [calls] records every call made on
    [tts_inference], oldest first; [names_drawn] counts the random names
    [tempfile] has consumed. *)
Record world : Type := {
  fs : filesystem;
  tts_inference : engine;
  calls : list engine_call;
  root_logger : list log_record;
  background_tasks : list task;
  names_drawn : nat
}.

Definition set_fs (f : filesystem) (w : world) : world :=
  {| fs := f; tts_inference := tts_inference w; calls := calls w;
     root_logger := root_logger w; background_tasks := background_tasks w;
     names_drawn := names_drawn w |}.

Definition set_names_drawn (n : nat) (w : world) : world :=
  {| fs := fs w; tts_inference := tts_inference w; calls := calls w;
     root_logger := root_logger w; background_tasks := background_tasks w;
     names_drawn := n |}.

(** Runs a filesystem operation on the world. *)
Definition on_fs {A} (m : M filesystem A) : M world A :=
  fun w => let '(r, f) := m (fs w) in (r, set_fs f w).

(** Makes the call [c] on [tts_inference], whose effect is [m]. *)
Definition on_engine {A} (c : engine_call) (m : M engine A) : M world A :=
  fun w =>
    let '(r, e) := m (tts_inference w) in
    (r, {| fs := fs w; tts_inference := e; calls := calls w ++ [c];
           root_logger := root_logger w;
           background_tasks := background_tasks w;
           names_drawn := names_drawn w |}).

(** [root_logger.error(msg, exc_info=True)] inside [except ... as e]. *)
Definition logger_error (msg : string) (e : exn) : M world unit :=
  modify (fun w =>
    {| fs := fs w; tts_inference := tts_inference w; calls := calls w;
       root_logger := root_logger w ++
         [{| levelname := "ERROR"; message := msg; exc_info := Some e |}];
       background_tasks := background_tasks w;
       names_drawn := names_drawn w |}).

(** [background_tasks.add_task(remove_temp_file, path)] *)
Definition add_task (path : string) : M world unit :=
  modify (fun w =>
    {| fs := fs w; tts_inference := tts_inference w; calls := calls w;
       root_logger := root_logger w;
       background_tasks := background_tasks w ++ [RemoveTempFile path];
       names_drawn := names_drawn w |}).

(** The name loop of [tempfile]: the first of the next [fuel] candidate
    names that does not exist in [dir], with the number of names drawn. *)
Fixpoint mkstemp_inner (fuel : nat) (seq : nat) (dir suffix : string)
    (f : filesystem) : option string * nat :=
  match fuel with
  | O => (None, seq)
  | S fuel' =>
      let file := join dir ("tmp" +:+ candidate_name seq +:+ suffix) in
      match f !! file with
      | None => (Some file, S seq)
      | Some _ => mkstemp_inner fuel' (S seq) dir suffix f
      end
  end.

(** [tempfile.NamedTemporaryFile(delete=False, suffix=suffix).name]: an
    empty file under a name that did not exist. *)
Definition NamedTemporaryFile (suffix : string) : M world string :=
  fun w =>
    if OS.isdir (fs w) gettempdir then
      match mkstemp_inner TMP_MAX (names_drawn w) gettempdir suffix (fs w) with
      | (Some file, n) =>
          (inr file, set_names_drawn n (set_fs (<[file := File Empty]> (fs w)) w))
      | (None, n) =>
          (inl (FileExistsError "No usable temporary file name found"),
           set_names_drawn n w)
      end
    else (inl (FileNotFoundError gettempdir), set_names_drawn (S (names_drawn w)) w).

(** [example_json[name][field]] *)
Definition preset_field (name field : string) : M world pyval :=
  let* preset := getitem example_json (Some name) in
  getitem preset (Some field).

(** [predict] lines 105-110 and [batch_predict] lines 163-168: the
    character shorthand overwrites the five identity fields. *)
Definition resolve_character (data : TTSModelRequest) : M world TTSModelRequest :=
  match character_name data with
  | None => ret data
  | Some name =>
      let* audio_path := preset_field name "audio_path" in
      let* ref_text := preset_field name "ref_text" in
      let* ref_language := preset_field name "ref_language" in
      let* gpt := preset_field name "gpt_weights" in
      let* sovits := preset_field name "sovits_weights" in
      ret {| character_name := character_name data;
             ref_audio_path := audio_path;
             sovits_weights := sovits;
             gpt_weights := gpt;
             prompt_text := ref_text;
             prompt_language := ref_language;
             text := text data;
             text_language := text_language data;
             how_to_cut := how_to_cut data;
             top_k := top_k data;
             top_p := top_p data;
             temperature := temperature data;
             ref_free := ref_free data;
             zip_filename := zip_filename data |}
  end.

(** [predict] lines 111-114, [batch_predict] lines 169-172 and
    [get_tts_wav] lines 88-91: each loader is called only when the loaded
    path differs from the requested one. *)
Definition swap_weights (sovits gpt : pyval) : M world unit :=
  (let* loaded := gets (fun w => sovits_model (tts_inference w)) in
   let* _ := if decide (loaded = sovits) then ret tt
             else on_engine (ChangeSovits sovits) (change_sovits_weights sovits) in
   let* loaded := gets (fun w => gpt_model (tts_inference w)) in
   if decide (loaded = gpt) then ret tt
   else on_engine (ChangeGpt gpt) (change_gpt_weights gpt)).

(** The arguments of the [infer] call, evaluated left to right; a language
    tag that is not in [LANG_DICT] raises [KeyError] before the call. *)
Definition infer_call (ref_wav prompt : pyval) (prompt_lang : pyval)
    (txt : string) (text_lang : pyval) (cut : pyval) (k : option Z)
    (p t : option Q) (free : option bool) : M world (Z * list Z) :=
  (let* pl := getitem LANG_DICT prompt_lang in
   let* tl := getitem LANG_DICT text_lang in
   let args := {| arg_ref_wav_path := ref_wav; arg_prompt_text := prompt;
                  arg_prompt_language := pl; arg_text := txt;
                  arg_text_language := tl; arg_how_to_cut := cut;
                  arg_top_k := k; arg_top_p := p; arg_temperature := t;
                  arg_ref_free := free |} in
   on_engine (Infer args) (infer args)).

(** [predict] lines 116-135 and [batch_predict] lines 176-195: the
    generation under [try: ... except Exception as e:]. *)
Definition generate (data : TTSModelRequest) (txt : string) : M world (Z * list Z) :=
  try_except
    (infer_call (ref_audio_path data) (prompt_text data)
       (prompt_language data) txt (Some (text_language data))
       (how_to_cut data) (top_k data) (top_p data) (temperature data)
       (ref_free data))
    (fun e =>
       let* _ := logger_error ("Error during inference: " +:+ exn_str e) e in
       raise (HTTPException 500 "Error during inference")).

(** The answer of the [except KeyError as e] branch. *)
Definition missing_parameter (key : pyval) : response :=
  ErrorTuple ("Missing necessary parameter: " +:+ py_str key) 400.

(** [predict] of [server/app.py]. *)
Definition predict (data : TTSModelRequest) : M world response :=
  try_except_KeyError
    (let* data := resolve_character data in
     let* _ := swap_weights (sovits_weights data) (gpt_weights data) in
     let* (sr, audio) := generate data (text data) in
     let* temp_file := NamedTemporaryFile ".wav" in
     let* _ := on_fs (OS.sf_write temp_file audio sr) in
     let* _ := add_task temp_file in
     ret (FileResponse temp_file "audio/wav"))
    (fun key => ret (missing_parameter key)).

(** The body of the [for text, filename in zip(texts, filenames)] loop of
    [batch_predict], lines 175-205; the value is the path appended to
    [audio_files]. *)
Definition synth_row (data : TTSModelRequest) (txt filename : string)
  : M world string :=
  (let* (sr, audio) := generate data txt in
   let* temp_file := NamedTemporaryFile ".wav" in
   let* _ := on_fs (OS.sf_write temp_file audio sr) in
   let final_path := join gettempdir filename in
   let* _ := on_fs (OS.rename temp_file final_path) in
   ret final_path).

(** The loop of [batch_predict], lines 173-205, from [audio_files]. *)
Fixpoint batch_loop (data : TTSModelRequest) (rows : list (string * string))
    (audio_files : list string) : M world (list string) :=
  match rows with
  | [] => ret audio_files
  | (txt, filename) :: rest =>
      (let* final_path := synth_row data txt filename in
       batch_loop data rest (audio_files ++ [final_path]))
  end.

(** [batch_predict] lines 173-211: the rows, then the zip of their files;
    the value is [audio_files] and [zip_file.name]. *)
Definition batch_artifacts (data : TTSModelRequest)
    (rows : list (string * string)) : M world (list string * string) :=
  (let* audio_files := batch_loop data rows [] in
   let* zip_file := NamedTemporaryFile ".zip" in
   let* _ := on_fs (OS.zip_write zip_file audio_files) in
   ret (audio_files, zip_file)).

(** [for audio_file in audio_files: background_tasks.add_task(...)] *)
Fixpoint add_tasks (audio_files : list string) : M world unit :=
  match audio_files with
  | [] => ret tt
  | f :: rest => (let* _ := add_task f in add_tasks rest)
  end.

(** [batch_predict] of [server/app.py], on the rows (text, filename) read
    from the uploaded sheet.  The local [final_zip_path] is only assigned
    under [if data.zip_filename is not None]; reading it unassigned raises
    [UnboundLocalError]. *)
Definition batch_predict (data : TTSModelRequest)
    (rows : list (string * string)) : M world response :=
  try_except_KeyError
    (let* data := resolve_character data in
     let* _ := swap_weights (sovits_weights data) (gpt_weights data) in
     let* (audio_files, zip_file) := batch_artifacts data rows in
     let* final_zip_path :=
       match zip_filename data with
       | Some name =>
           let final_zip_path := join gettempdir name in
           let* _ := on_fs (OS.rename zip_file final_zip_path) in
           ret (Some final_zip_path)
       | None => ret None
       end in
     let* _ := add_tasks audio_files in
     let* target :=
       match final_zip_path with
       | Some p => ret p
       | None => raise (UnboundLocalError "final_zip_path")
       end in
     let* _ := add_task target in
     ret (FileResponse target "application/zip"))
    (fun key => ret (missing_parameter key)).

(** [models_info[speaker][model]] of a [ModelHandler]. *)
Definition model_path (models_info : gmap string (gmap string string))
    (speaker model : pyval) : M world string :=
  (let* models := getitem models_info speaker in
   getitem models model).

(** [get_tts_wav] of [server/webui.py]. *)
Definition get_tts_wav (sovits_speaker sovits_name gpt_speaker gpt_name : pyval)
    (tts_ref_audio tts_prompt_text tts_prompt_language : pyval)
    (tts_text : string) (tts_text_language : pyval) (cut : pyval)
    (k : option Z) (p t : option Q) (free : option bool)
  : M world (Z * list Z) :=
  (let* sovits := model_path sovits_models_info sovits_speaker sovits_name in
   let* gpt := model_path gpt_models_info gpt_speaker gpt_name in
   let* _ := swap_weights (Some sovits) (Some gpt) in
   infer_call tts_ref_audio tts_prompt_text tts_prompt_language tts_text
     tts_text_language cut k p t free).

(** *** Reference functions used to state the properties *)

(** The [infer] arguments of a request for the text [txt], when both
    language tags are keys of [LANG_DICT]. *)
Definition row_args (data : TTSModelRequest) (txt : string) : option infer_args :=
  match prompt_language data with
  | None => None
  | Some tag =>
      match LANG_DICT !! tag, LANG_DICT !! text_language data with
      | Some pl, Some tl =>
          Some {| arg_ref_wav_path := ref_audio_path data;
                  arg_prompt_text := prompt_text data;
                  arg_prompt_language := pl; arg_text := txt;
                  arg_text_language := tl;
                  arg_how_to_cut := how_to_cut data;
                  arg_top_k := top_k data; arg_top_p := top_p data;
                  arg_temperature := temperature data;
                  arg_ref_free := ref_free data |}
      | _, _ => None
      end
  end.

(** The key that [generate] fails to find in [LANG_DICT], if any: the
    prompt language is looked up first. *)
Definition missing_language (data : TTSModelRequest) : option pyval :=
  match prompt_language data with
  | None => Some None
  | Some tag =>
      match LANG_DICT !! tag with
      | None => Some (Some tag)
      | Some _ =>
          match LANG_DICT !! text_language data with
          | None => Some (Some (text_language data))
          | Some _ => None
          end
      end
  end.

(** The engine alone, run on the texts of a batch in row order: the
    outputs of the rows and the engine left behind, when every row
    succeeds. *)
Fixpoint engine_outputs (data : TTSModelRequest) (texts : list string)
    (e : engine) : option (list (Z * list Z) * engine) :=
  match texts with
  | [] => Some ([], e)
  | txt :: rest =>
      match row_args data txt with
      | None => None
      | Some args =>
          match infer args e with
          | (inr out, e') =>
              match engine_outputs data rest e' with
              | Some (outs, e'') => Some (out :: outs, e'')
              | None => None
              end
          | (inl _, _) => None
          end
      end
  end.

(** A filesystem after WAV files have been written in list order. *)
Definition write_all (f : filesystem) (l : list (string * (Z * list Z)))
  : filesystem :=
  foldl (fun f po => <[po.1 := File (Wav po.2.1 po.2.2)]> f) f l.

(** The output that was written last to the path [p]. *)
Fixpoint last_write (l : list (string * (Z * list Z))) (p : string)
  : option (Z * list Z) :=
  match l with
  | [] => None
  | (q, out) :: rest =>
      match last_write rest p with
      | Some o => Some o
      | None => if decide (q = p) then Some out else None
      end
  end.


(** The entries of the zip of the files at [paths] after the outputs
    [outs] were written to them in order: each entry holds what was
    written last to its path. *)
Definition zipped (paths : list string) (outs : list (Z * list Z))
  : list (string * content) :=
  fmap (fun p => (basename p,
                 match last_write (zip paths outs) p with
                 | Some out => Wav out.1 out.2
                 | None => Empty
                 end)) paths.

(** The world with the cleanup of [paths] added to [background_tasks]. *)
Definition with_tasks (paths : list string) (w : world) : world :=
  {| fs := fs w; tts_inference := tts_inference w; calls := calls w;
     root_logger := root_logger w;
     background_tasks := background_tasks w ++ fmap RemoveTempFile paths;
     names_drawn := names_drawn w |}.

(** The request with the shorthand spelled out: no character name, and
    the five identity fields as given. *)
Definition explicit (data : TTSModelRequest)
    (audio_path ref_text ref_language gpt sovits : pyval) : TTSModelRequest :=
  {| character_name := None;
     ref_audio_path := audio_path;
     sovits_weights := sovits;
     gpt_weights := gpt;
     prompt_text := ref_text;
     prompt_language := ref_language;
     text := text data;
     text_language := text_language data;
     how_to_cut := how_to_cut data;
     top_k := top_k data;
     top_p := top_p data;
     temperature := temperature data;
     ref_free := ref_free data;
     zip_filename := zip_filename data |}.

(** The engine after the first half of [swap_weights], or the exception
    the SoVITS loader raised. *)
Definition after_sovits (sovits : pyval) (e : engine) : exn + engine :=
  if decide (sovits_model e = sovits) then inr e
  else match change_sovits_weights sovits e with
       | (inr _, e') => inr e'
       | (inl x, _) => inl x
       end.


(** The weight-loading calls a request for the paths [sovits] and [gpt]
    is to make on the engine [e]: a loader is called exactly when the
    path it would load differs from the loaded one.  The GPT comparison
    is made on the engine the SoVITS half left behind, and is not reached
    when the SoVITS loader raised. *)
Definition expected_loads (sovits gpt : pyval) (e : engine) : list engine_call :=
  (if decide (sovits_model e = sovits) then [] else [ChangeSovits sovits]) ++
  match after_sovits sovits e with
  | inr e1 => if decide (gpt_model e1 = gpt) then [] else [ChangeGpt gpt]
  | inl _ => []
  end.


(** The record [generate] logs for the exception [x]. *)
Definition inference_error_record (x : exn) : log_record :=
  {| levelname := "ERROR";
     message := "Error during inference: " +:+ exn_str x;
     exc_info := Some x |}.

(** [stable R m]: the world after [m] is related by [R] to the world
    before, whether [m] returns or raises. *)
Definition stable {A} (R : relation world) (m : M world A) : Prop :=
  forall w : world, R w (m w).2.

(** The relation of two worlds that agree on a field. *)
Definition same {X} (proj : world -> X) : relation world :=
  fun w w' => proj w = proj w'.

Definition is_infer (c : engine_call) : Prop :=
  match c with
  | Infer _ => True
  | _ => False
  end.

(** The calls made since [w] are all [infer] calls. *)
Definition infers_since : relation world :=
  fun w w' => exists cs, calls w' = calls w ++ cs /\ Forall is_infer cs.

End Server.

(** ** A small deployment to run the handlers on

    An engine that remembers the two loaded paths, refuses an empty text and
    otherwise answers with the length of the text as its one sample; a preset
    table with one character; [/tmp] as the temporary directory. *)
Module Demo.

Definition demo_engine : TTSInference := {|
  engine := pyval * pyval;
  sovits_model := fst;
  gpt_model := snd;
  change_sovits_weights := fun p e => (inr tt, (p, snd e));
  change_gpt_weights := fun p e => (inr tt, (fst e, p));
  infer := fun a e =>
    if String.eqb (arg_text a) "" then
      (inl (OtherException "ValueError" "empty text"), e)
    else (inr (32000, [Z.of_nat (String.length (arg_text a))]), e)
|}.

Definition demo_preset : gmap string pyval :=
  <["audio_path" := Some "examples/demo.wav"]>
  (<["ref_text" := Some "hello"]>
  (<["ref_language" := Some "英文"]>
  (<["gpt_weights" := Some "demo.ckpt"]>
  (<["sovits_weights" := Some "demo.pth"]> ∅)))).

Definition demo_host : Host := {|
  example_json := {[ "demo" := demo_preset ]};
  sovits_models_info := {[ "demo" := {[ "v1" := "demo.pth" ]} ]};
  gpt_models_info := {[ "demo" := {[ "v1" := "demo.ckpt" ]} ]};
  gettempdir := "/tmp";
  candidate_name := fun n => pretty n;
  exn_str := fun e =>
    match e with
    | OtherException _ m => m
    | _ => "error"
    end
|}.

#[local] Existing Instance demo_engine.
#[local] Existing Instance demo_host.

(** A fresh server: only [/tmp] exists, nothing is loaded. *)
Definition w0 : world :=
  {| fs := {[ "/tmp" := Dir ]};
     tts_inference := ((None, None) : pyval * pyval);
     calls := []; root_logger := []; background_tasks := [];
     names_drawn := 0 |}.

(** The server after the weights of the character [demo] were loaded. *)
Definition w_demo : world :=
  {| fs := {[ "/tmp" := Dir ]};
     tts_inference := ((Some "demo.pth", Some "demo.ckpt") : pyval * pyval);
     calls := []; root_logger := []; background_tasks := [];
     names_drawn := 0 |}.

(** A request for the character [c], the text [t] and the zip name [z]. *)
Definition request (c : pyval) (t lang : string) (z : pyval) : TTSModelRequest :=
  {| character_name := c; ref_audio_path := None; sovits_weights := None;
     gpt_weights := None; prompt_text := None; prompt_language := None;
     text := t; text_language := lang; how_to_cut := Some "不切";
     top_k := Some 5; top_p := None; temperature := None;
     ref_free := Some false; zip_filename := z |}.

(** The request [request (Some "demo") t lang z] after the shorthand was
    resolved. *)
Definition resolved (t lang : string) (z : pyval) : TTSModelRequest :=
  {| character_name := Some "demo";
     ref_audio_path := Some "examples/demo.wav";
     sovits_weights := Some "demo.pth"; gpt_weights := Some "demo.ckpt";
     prompt_text := Some "hello"; prompt_language := Some "英文";
     text := t; text_language := lang; how_to_cut := Some "不切";
     top_k := Some 5; top_p := None; temperature := None;
     ref_free := Some false; zip_filename := z |}.

(** The [infer] arguments of the resolved request for the text [t]. *)
Definition args_of (t : string) : infer_args :=
  {| arg_ref_wav_path := Some "examples/demo.wav";
     arg_prompt_text := Some "hello";
     arg_prompt_language := "en"; arg_text := t;
     arg_text_language := "all_zh"; arg_how_to_cut := Some "不切";
     arg_top_k := Some 5; arg_top_p := None; arg_temperature := None;
     arg_ref_free := Some false |}.

(** Two rows with different filenames, two rows with the same filename,
    and three rows of which the second has an empty text. *)
Definition rows_ab : list (string * string) :=
  [("a", "a.wav"); ("bb", "b.wav")].


Definition rows_fail : list (string * string) :=
  [("a", "a.wav"); ("", "b.wav"); ("cc", "c.wav")].

(** Only [/tmp] on disk, and [/tmp] with one WAV file. *)
Definition fs_tmp : filesystem := {[ "/tmp" := Dir ]}.


(** The world a computation leaves behind. *)
Definition run {A} (m : M world A) (w : world) : world := (m w).2.


End Demo.

(** Whether a name has no [/] in it. *)
Fixpoint slash_free (s : string) : bool :=
  match s with
  | EmptyString => true
  | String c r => negb (PosixPath.is_sep c) && slash_free r
  end.

(** ** After the response: the background tasks *)

(** One task of [background_tasks], run on the filesystem. *)
Definition run_task (t : task) : M filesystem unit :=
  match t with
  | RemoveTempFile path => remove_temp_file path
  end.

(** [BackgroundTasks.__call__] of Starlette, which FastAPI awaits once the
    response has been sent: [for task in self.tasks: await task()].  The
    tasks run in the order they were added; an exception of a task ends the
    run, so the tasks after it are not run. *)
Fixpoint run_tasks (tasks : list task) : M filesystem unit :=
  match tasks with
  | [] => ret tt
  | t :: rest => bind (run_task t) (fun _ => run_tasks rest)
  end.

(** ** The model selection of the web UI ([server/webui.py]) *)
Module WebUI.

(** A Python [dict] in insertion order, which is the order of
    [for k in d] and of [list(d.keys())]. *)
Definition odict (V : Type) : Type := list (string * V).

Definition keys {V} (d : odict V) : list string := d.*1.

(** The value [d[k]] finds, if any. *)
Fixpoint lookup_key {V} (d : odict V) (k : string) : option V :=
  match d with
  | [] => None
  | (k', v) :: rest => if decide (k' = k) then Some v else lookup_key rest k
  end.

(** [d[k]], or [KeyError(k)]. *)
Definition odict_getitem {V} (d : odict V) (k : pyval) : exn + V :=
  match k with
  | Some s =>
      match lookup_key d s with
      | Some v => inr v
      | None => inl (KeyError k)
      end
  | None => inl (KeyError None)
  end.

(** The [gr.Dropdown] that [select_model_func] builds. *)
Record Dropdown : Type := {
  choices : list string;
  label : string;
  info : string;
  value : string;
  visible : bool;
  interactive : bool
}.

(** [for speaker in handler.models_info:
       model_list.extend(list(handler.models_info[speaker].keys()))] *)
Fixpoint extend_all (models_info : odict (odict string))
    (speakers : list string) (model_list : list string) : exn + list string :=
  match speakers with
  | [] => inr model_list
  | speaker :: rest =>
      match odict_getitem models_info (Some speaker) with
      | inl e => inl e
      | inr models => extend_all models_info rest (model_list ++ keys models)
      end
  end.

(** [select_model_func(speaker_name, handler)] of [server/webui.py], on
    [handler.models_info]; [model_list[0]] raises [IndexError] on an empty
    list. *)
Definition select_model_func (speaker_name : pyval)
    (models_info : odict (odict string)) : exn + Dropdown :=
  match
    (if decide (speaker_name = Some "All speakers")
     then extend_all models_info (keys models_info) []
     else match odict_getitem models_info speaker_name with
          | inl e => inl e
          | inr models => inr (keys models)
          end)
  with
  | inl e => inl e
  | inr model_list =>
      match model_list with
      | [] => inl (OtherException "IndexError" "list index out of range")
      | first :: _ =>
          inr {| choices := model_list;
                 label := "选择角色对应模型";
                 info := "Models to choose";
                 value := first;
                 visible := true;
                 interactive := true |}
      end
  end.

(** The two-level table that [get_tts_wav] indexes, from the ordered one. *)
Definition table (models_info : odict (odict string))
  : gmap string (gmap string string) :=
  list_to_map ((fun sm : string * odict string => (sm.1, list_to_map sm.2))
               <$> models_info).

Section Refresh.
Context {S V : Type}.

(** The keyword arguments of [gr.update], which are also the attributes
    that are set on the component. *)
Definition kwargs : Type := gmap string V.

(** An element of [refreshed_args]: a function to call, or a dictionary. *)
Inductive refreshed_arg : Type :=
  | Callable (f : M S kwargs)
  | Given (d : kwargs).

(** A handler: its methods without arguments, by name, acting on the state
    [S] of the handlers. *)
Definition handler : Type := gmap string (M S unit).

(** The state [refresh] acts on: the handlers, and the attributes of each
    UI component (by the name of the component). *)
Record ui : Type := {
  handlers_state : S;
  components : gmap string kwargs
}.

Definition on_handlers {A} (m : M S A) : M ui A :=
  fun u =>
    let '(r, s) := m (handlers_state u) in
    (r, {| handlers_state := s; components := components u |}).

(** [getattr(handler, refresh_method)()] *)
Definition call_method (h : handler) (refresh_method : string) : M ui unit :=
  match h !! refresh_method with
  | Some method => on_handlers method
  | None => raise (OtherException "AttributeError" refresh_method)
  end.

(** [for k, v in args.items(): setattr(refresh_component, k, v)] *)
Definition setattrs (component : string) (args : kwargs) : M ui unit :=
  modify (fun u =>
    {| handlers_state := handlers_state u;
       components :=
         <[component := args ∪ default ∅ (components u !! component)]>
           (components u) |}).

(** The loop of [refresh]; [updates] is the local of that name, unassigned
    before the first round and assigned afresh in every round. *)
Fixpoint refresh_loop (refresh_method : string)
    (rounds : list (handler * (string * refreshed_arg)))
    (updates : option (gmap string kwargs)) : M ui (option (gmap string kwargs)) :=
  match rounds with
  | [] => ret updates
  | (h, (refresh_component, refreshed)) :: rest =>
      bind (call_method h refresh_method) (fun _ =>
      bind (match refreshed with
            | Callable f => on_handlers f
            | Given d => ret d
            end) (fun args =>
      let updates : gmap string kwargs := ∅ in
      bind (setattrs refresh_component args) (fun _ =>
      let updates := <[refresh_component := args]> updates in
      refresh_loop refresh_method rest (Some updates))))
  end.

(** The function [refresh] that [create_model_refresh_button] gives to the
    button, for its arguments [handlers], [refresh_components],
    [refresh_method] and [refreshed_args]. *)
Definition refresh (handlers : list handler) (refresh_components : list string)
    (refresh_method : string) (refreshed_args : list refreshed_arg)
  : M ui (gmap string kwargs) :=
  bind (refresh_loop refresh_method
          (zip handlers (zip refresh_components refreshed_args)) None)
    (fun updates =>
       match updates with
       | Some u => ret u
       | None => raise (UnboundLocalError "updates")
       end).

End Refresh.

End WebUI.

(** ** More of the demo deployment *)
Module DemoUI.

(** The model table of a handler with two speakers. *)
Definition models_info : WebUI.odict (WebUI.odict string) :=
  [("alice", [("a1", "alice/a1.pth"); ("a2", "alice/a2.pth")]);
   ("bob", [("b1", "bob/b1.pth")])].

(** A handler whose [load_models_info] counts its calls, and the two
    handlers of the refresh button. *)
Definition counting : WebUI.handler (S := nat) :=
  {[ "load_models_info" := (fun n : nat => (inr tt, Datatypes.S n)) ]}.

Definition speakers (n : nat) : WebUI.kwargs (V := list string) :=
  {[ "choices" := ["All speakers"; pretty n] ]}.

Definition ui0 : WebUI.ui (S := nat) (V := list string) :=
  {| WebUI.handlers_state := 0%nat; WebUI.components := ∅ |}.

(** A refreshed argument that reads the state of the handlers. *)
Definition speakers_now : WebUI.refreshed_arg (S := nat) (V := list string) :=
  WebUI.Callable (fun n : nat => (inr (speakers n), n)).

(** The model table of the demo deployment, in its order. *)
Definition demo_models : WebUI.odict (WebUI.odict string) :=
  [("demo", [("v1", "demo.pth")])].



(** An engine whose loaders find no weights but those of the character
    [demo]. *)
Definition picky_engine : TTSInference := {|
  engine := pyval * pyval;
  sovits_model := fst;
  gpt_model := snd;
  change_sovits_weights := fun p e =>
    if decide (p = Some "demo.pth") then (inr tt, (p, snd e))
    else (inl (FileNotFoundError (py_str p)), e);
  change_gpt_weights := fun p e =>
    if decide (p = Some "demo.ckpt") then (inr tt, (fst e, p))
    else (inl (FileNotFoundError (py_str p)), e);
  infer := fun a e => (inr (32000, [Z.of_nat (String.length (arg_text a))]), e)
|}.

(** A fresh server with that engine. *)
Definition w_picky : @world picky_engine :=
  @Build_world picky_engine Demo.fs_tmp (None, None) [] [] [] 0.

(** A request that names weights which are not there. *)
Definition request_missing : TTSModelRequest :=
  explicit (Demo.request None "hi" "中文" None)
    (Some "examples/demo.wav") (Some "hello") (Some "英文")
    (Some "missing.ckpt") (Some "missing.pth").

(** The demo server with a second directory, and a sheet whose filename is
    an absolute path into it. *)
Definition w_srv : @world Demo.demo_engine :=
  @Build_world Demo.demo_engine (<["/srv" := Dir]> Demo.fs_tmp)
    (Some "demo.pth", Some "demo.ckpt") [] [] [] 0.

Definition rows_srv : list (string * string) := [("a", "/srv/a.wav")].

(** A batch request for the character [demo] that names its zip. *)
Definition request_zip : TTSModelRequest :=
  Demo.request (Some "demo") "" "中文" (Some "out.zip").


End DemoUI.

(** ** Facts about the monad *)

Section MonadFacts.
Context {S A B : Type}.
Implicit Types (m : M S A) (k : A -> M S B).

Lemma bind_inr m k s a s' :
  m s = (inr a, s') -> bind m k s = k a s'.
Proof. intros Hm. unfold bind. now rewrite Hm. Qed.

Lemma bind_inl m k s e s' :
  m s = (inl e, s') -> bind m k s = (inl e, s').
Proof. intros Hm. unfold bind. now rewrite Hm. Qed.

Lemma bind_inr_inv m k s b s'' :
  bind m k s = (inr b, s'') ->
  exists a s', m s = (inr a, s') /\ k a s' = (inr b, s'').
Proof.
  unfold bind. destruct (m s) as [[e|a] s'] eqn:Hm; intros Hk.
  - discriminate.
  - now exists a, s'.
Qed.

Lemma bind_inl_inv m k s e s'' :
  bind m k s = (inl e, s'') ->
  m s = (inl e, s'') \/
  exists a s', m s = (inr a, s') /\ k a s' = (inl e, s'').
Proof.
  unfold bind. destruct (m s) as [[e'|a] s'] eqn:Hm; intros Hk.
  - left. congruence.
  - right. now exists a, s'.
Qed.

End MonadFacts.

(** ** Facts about the filesystem *)

Section FilesystemFacts.
Implicit Types (f : filesystem) (path : string).




End FilesystemFacts.



(** ** Facts about the handlers *)

Section ServerFacts.
Context `{!TTSInference} `{!Host}.
Import PosixPath.
Local Open Scope py_scope.
Implicit Types (data : TTSModelRequest) (w : world) (e : exn).

(** *** The character shorthand *)







(** *** Frame properties *)

Section Stable.
Context (R : relation world) `{!PreOrder R}.

Lemma stable_ret {A} (a : A) : stable R (ret a).
Proof. intros w. simpl. reflexivity. Qed.

Lemma stable_raise {A} e : stable R (raise e : M world A).
Proof. intros w. simpl. reflexivity. Qed.

Lemma stable_gets {A} (f : world -> A) : stable R (gets f).
Proof. intros w. simpl. reflexivity. Qed.

Lemma stable_getitem {V} (d : gmap string V) k :
  stable R (getitem d k : M world V).
Proof.
  intros w. unfold getitem. destruct k as [s|]; [|reflexivity].
  destruct (d !! s); reflexivity.
Qed.

Lemma stable_bind {A B} (m : M world A) (k : A -> M world B) :
  stable R m -> (forall a, stable R (k a)) -> stable R (bind m k).
Proof.
  intros Hm Hk w. unfold bind. specialize (Hm w).
  destruct (m w) as [[x|a] w1]; simpl in *; [assumption|].
  etransitivity; [exact Hm | apply Hk].
Qed.

Lemma stable_try_except {A} (m : M world A) (h : exn -> M world A) :
  stable R m -> (forall e, stable R (h e)) -> stable R (try_except m h).
Proof.
  intros Hm Hh w. unfold try_except. specialize (Hm w).
  destruct (m w) as [[x|a] w1]; simpl in *; [|assumption].
  etransitivity; [exact Hm | apply Hh].
Qed.

Lemma stable_try_except_KeyError {A} (m : M world A) (h : pyval -> M world A) :
  stable R m -> (forall k, stable R (h k)) ->
  stable R (try_except_KeyError m h).
Proof.
  intros Hm Hh. apply stable_try_except; [assumption|].
  intros []; try apply stable_raise. apply Hh.
Qed.

Lemma stable_if {A} (b : bool) (m1 m2 : M world A) :
  stable R m1 -> stable R m2 -> stable R (if b then m1 else m2).
Proof. now destruct b. Qed.

Lemma stable_preset_field name field : stable R (preset_field name field).
Proof.
  apply stable_bind; [apply stable_getitem|].
  intros preset. apply stable_getitem.
Qed.

Lemma stable_resolve_character data : stable R (resolve_character data).
Proof.
  unfold resolve_character. destruct (character_name data) as [name|].
  - repeat (apply stable_bind; [apply stable_preset_field | intros ?]).
    apply stable_ret.
  - apply stable_ret.
Qed.

End Stable.

#[local] Instance same_preorder {X} (proj : world -> X) : PreOrder (same proj).
Proof.
  split.
  - intros w. reflexivity.
  - intros w1 w2 w3 H12 H23. unfold same in *. congruence.
Qed.

#[local] Instance infers_since_preorder : PreOrder infers_since.
Proof.
  split.
  - intros w. exists []. split; [now rewrite app_nil_r | constructor].
  - intros w1 w2 w3 (c12 & H12 & F12) (c23 & H23 & F23).
    exists (c12 ++ c23). split.
    + now rewrite H23, H12, app_assoc.
    + now apply Forall_app.
Qed.

(** The primitive steps, for any relation they respect. *)
Section StablePrimitives.
Context (R : relation world).

Lemma stable_on_fs {A} (m : M filesystem A) :
  (forall w f, R w (set_fs f w)) -> stable R (on_fs m).
Proof.
  intros HR w. unfold on_fs. destruct (m (fs w)) as [r f]. apply HR.
Qed.

Lemma stable_NamedTemporaryFile suffix :
  (forall w f n, R w (set_names_drawn n (set_fs f w))) ->
  (forall w n, R w (set_names_drawn n w)) ->
  stable R (NamedTemporaryFile suffix).
Proof.
  intros HR1 HR2 w. unfold NamedTemporaryFile.
  destruct (OS.isdir (fs w) gettempdir); [|apply HR2].
  destruct (mkstemp_inner _ _ _ _ _) as [[file|] n]; [apply HR1|apply HR2].
Qed.

Lemma stable_on_engine {A} c (m : M engine A) :
  (forall w (eng : engine),
     R w {| fs := fs w; tts_inference := eng; calls := calls w ++ [c];
            root_logger := root_logger w;
            background_tasks := background_tasks w;
            names_drawn := names_drawn w |}) ->
  stable R (on_engine c m).
Proof.
  intros HR w. unfold on_engine.
  destruct (m (tts_inference w)) as [r eng]. apply HR.
Qed.

Lemma stable_logger_error msg e :
  (forall w l,
     R w {| fs := fs w; tts_inference := tts_inference w;
            calls := calls w; root_logger := l;
            background_tasks := background_tasks w;
            names_drawn := names_drawn w |}) ->
  stable R (logger_error msg e).
Proof. intros HR w. apply HR. Qed.

Lemma stable_add_task path :
  (forall w l,
     R w {| fs := fs w; tts_inference := tts_inference w;
            calls := calls w; root_logger := root_logger w;
            background_tasks := l;
            names_drawn := names_drawn w |}) ->
  stable R (add_task path).
Proof. intros HR w. apply HR. Qed.

End StablePrimitives.

Lemma infers_since_infer w (eng : engine) args :
  infers_since w
    {| fs := fs w; tts_inference := eng; calls := calls w ++ [Infer args];
       root_logger := root_logger w;
       background_tasks := background_tasks w;
       names_drawn := names_drawn w |}.
Proof. exists [Infer args]. split; [reflexivity|]. repeat constructor. Qed.

Lemma infers_since_same_calls w w' :
  calls w' = calls w -> infers_since w w'.
Proof. intros Hc. exists []. rewrite Hc, app_nil_r. split; [reflexivity|constructor]. Qed.

(** Solves [stable R m] step by step, for the steps that respect [R]. *)
Ltac frame_prim :=
  intros;
  first [ reflexivity
        | apply infers_since_same_calls; reflexivity
        | apply infers_since_infer ].

Ltac frame_step :=
  lazymatch goal with
  | |- forall _, _ => intros
  | |- stable ?R (ret _) => apply (stable_ret R)
  | |- stable ?R (raise _) => apply (stable_raise R)
  | |- stable ?R (gets _) => apply (stable_gets R)
  | |- stable ?R (getitem _ _) => apply (stable_getitem R)
  | |- stable ?R (resolve_character _) => apply (stable_resolve_character R)
  | |- stable ?R (bind _ _) => apply (stable_bind R); [|intros]
  | |- stable ?R (try_except_KeyError _ _) =>
      apply (stable_try_except_KeyError R); [|intros]
  | |- stable ?R (try_except _ _) => apply (stable_try_except R); [|intros]
  | |- stable ?R (on_fs _) => apply (stable_on_fs R); frame_prim
  | |- stable ?R (NamedTemporaryFile _) =>
      apply (stable_NamedTemporaryFile R); frame_prim
  | |- stable ?R (on_engine _ _) => apply (stable_on_engine R); frame_prim
  | |- stable ?R (logger_error _ _) => apply (stable_logger_error R); frame_prim
  | |- stable ?R (add_task _) => apply (stable_add_task R); frame_prim
  | |- stable ?R (let _ := _ in _) => cbv zeta
  | |- stable ?R (match ?x with _ => _ end) => destruct x
  end.

Ltac frame := repeat frame_step.

(** *** Generation *)

Lemma generate_same_fs data txt : stable (same fs) (generate data txt).
Proof. unfold generate, infer_call. frame. Qed.

Lemma generate_same_tasks data txt :
  stable (same background_tasks) (generate data txt).
Proof. unfold generate, infer_call. frame. Qed.


Lemma row_args_missing_language data txt :
  row_args data txt = None <-> is_Some (missing_language data).
Proof.
  unfold row_args, missing_language.
  destruct (prompt_language data) as [tag|]; [|now split; eauto].
  destruct (LANG_DICT !! tag); [|now split; eauto].
  destruct (LANG_DICT !! text_language data); split; eauto.
  - discriminate.
  - intros [? ?]. discriminate.
Qed.

(** The tag that is reported missing is one of the request's two tags and
    is not a key of [LANG_DICT]. *)
Lemma missing_language_not_key data key :
  missing_language data = Some key ->
  (key = prompt_language data \/ key = Some (text_language data)) /\
  (forall tag, key = Some tag -> LANG_DICT !! tag = None).
Proof.
  unfold missing_language.
  destruct (prompt_language data) as [tag|] eqn:Hp.
  - destruct (LANG_DICT !! tag) eqn:Ht.
    + destruct (LANG_DICT !! text_language data) eqn:Hl; [discriminate|].
      intros [= <-]. split; [now right|]. now intros ? [= <-].
    + intros [= <-]. split; [now left|]. now intros ? [= <-].
  - intros [= <-]. split; [now left|]. discriminate.
Qed.

Lemma generate_ok data txt w args out eng :
  row_args data txt = Some args ->
  infer args (tts_inference w) = (inr out, eng) ->
  generate data txt w =
    (inr out,
     {| fs := fs w; tts_inference := eng; calls := calls w ++ [Infer args];
        root_logger := root_logger w;
        background_tasks := background_tasks w;
        names_drawn := names_drawn w |}).
Proof.
  unfold row_args. intros Hargs Hinfer.
  unfold generate, try_except, infer_call, bind, getitem, on_engine, ret.
  destruct (prompt_language data) as [tag|]; [|discriminate].
  destruct (LANG_DICT !! tag) as [pl|]; [|discriminate]. simpl.
  destruct (LANG_DICT !! text_language data) as [tl|]; [|discriminate]. simpl.
  injection Hargs as <-. now rewrite Hinfer.
Qed.

Lemma generate_engine_raises data txt w args x eng :
  row_args data txt = Some args ->
  infer args (tts_inference w) = (inl x, eng) ->
  generate data txt w =
    (inl (HTTPException 500 "Error during inference"),
     {| fs := fs w; tts_inference := eng; calls := calls w ++ [Infer args];
        root_logger := root_logger w ++ [inference_error_record x];
        background_tasks := background_tasks w;
        names_drawn := names_drawn w |}).
Proof.
  unfold row_args. intros Hargs Hinfer.
  unfold generate, try_except, infer_call, bind, getitem, on_engine, ret.
  destruct (prompt_language data) as [tag|]; [|discriminate].
  destruct (LANG_DICT !! tag) as [pl|]; [|discriminate]. simpl.
  destruct (LANG_DICT !! text_language data) as [tl|]; [|discriminate]. simpl.
  injection Hargs as <-. now rewrite Hinfer.
Qed.

Lemma generate_missing_language data txt w key :
  missing_language data = Some key ->
  generate data txt w =
    (inl (HTTPException 500 "Error during inference"),
     {| fs := fs w; tts_inference := tts_inference w; calls := calls w;
        root_logger := root_logger w ++ [inference_error_record (KeyError key)];
        background_tasks := background_tasks w;
        names_drawn := names_drawn w |}).
Proof.
  unfold missing_language. intros Hkey.
  unfold generate, try_except, infer_call, bind, getitem, on_engine, ret, raise.
  destruct (prompt_language data) as [tag|];
    [|injection Hkey as <-; reflexivity].
  destruct (LANG_DICT !! tag) as [pl|];
    [|injection Hkey as <-; reflexivity]. simpl.
  destruct (LANG_DICT !! text_language data) as [tl|];
    [discriminate|injection Hkey as <-; reflexivity].
Qed.

(** What is known when [generate] returned. *)
Lemma generate_inr_inv data txt w out w' :
  generate data txt w = (inr out, w') ->
  exists args,
    row_args data txt = Some args /\
    infer args (tts_inference w) = (inr out, tts_inference w') /\
    w' = {| fs := fs w; tts_inference := tts_inference w';
            calls := calls w ++ [Infer args];
            root_logger := root_logger w;
            background_tasks := background_tasks w;
            names_drawn := names_drawn w |}.
Proof.
  intros Hgen. destruct (row_args data txt) as [args|] eqn:Hargs.
  - destruct (infer args (tts_inference w)) as [[x|out'] eng] eqn:Hinfer.
    + rewrite (generate_engine_raises _ _ _ _ _ _ Hargs Hinfer) in Hgen.
      discriminate.
    + rewrite (generate_ok _ _ _ _ _ _ Hargs Hinfer) in Hgen.
      injection Hgen as <- <-. exists args. now repeat split.
  - apply row_args_missing_language in Hargs as [key Hkey].
    rewrite (generate_missing_language _ _ _ _ Hkey) in Hgen. discriminate.
Qed.

(** Whatever goes wrong in [generate], the caller sees the same exception. *)
Lemma generate_inl_inv data txt w x w' :
  generate data txt w = (inl x, w') ->
  x = HTTPException 500 "Error during inference".
Proof.
  intros Hgen. destruct (row_args data txt) as [args|] eqn:Hargs.
  - destruct (infer args (tts_inference w)) as [[x'|out'] eng] eqn:Hinfer.
    + rewrite (generate_engine_raises _ _ _ _ _ _ Hargs Hinfer) in Hgen.
      congruence.
    + rewrite (generate_ok _ _ _ _ _ _ Hargs Hinfer) in Hgen. discriminate.
  - apply row_args_missing_language in Hargs as [key Hkey].
    rewrite (generate_missing_language _ _ _ _ Hkey) in Hgen. congruence.
Qed.

(** *** The weight swap *)

Lemma swap_weights_same_fs sovits gpt : stable (same fs) (swap_weights sovits gpt).
Proof. unfold swap_weights. frame. Qed.

Lemma swap_weights_same_tasks sovits gpt :
  stable (same background_tasks) (swap_weights sovits gpt).
Proof. unfold swap_weights. frame. Qed.

Lemma swap_weights_same_logger sovits gpt :
  stable (same root_logger) (swap_weights sovits gpt).
Proof. unfold swap_weights. frame. Qed.


(** The calls [swap_weights] makes are exactly the expected loads. *)
Lemma swap_weights_calls sovits gpt w :
  calls (swap_weights sovits gpt w).2 =
  calls w ++ expected_loads sovits gpt (tts_inference w).
Proof.
  unfold swap_weights, expected_loads, after_sovits, bind, gets, ret, on_engine.
  simpl. destruct (decide (sovits_model (tts_inference w) = sovits)) as [Hs|Hs];
    simpl.
  - destruct (decide (gpt_model (tts_inference w) = gpt)); simpl.
    + now rewrite app_nil_r.
    + now destruct (change_gpt_weights gpt (tts_inference w)).
  - destruct (change_sovits_weights sovits (tts_inference w)) as [[x|[]] e1];
      simpl; [reflexivity|].
    destruct (decide (gpt_model e1 = gpt)); simpl.
    + reflexivity.
    + destruct (change_gpt_weights gpt e1). simpl. now rewrite <- app_assoc.
Qed.





(** *** Temporary files and one row of a batch *)

Lemma mkstemp_inner_fresh fuel seq dir suffix (f : filesystem) file n :
  mkstemp_inner fuel seq dir suffix f = (Some file, n) -> f !! file = None.
Proof.
  revert seq. induction fuel as [|fuel IH]; intros seq; simpl.
  - discriminate.
  - destruct (f !! join dir _) eqn:Hl.
    + apply IH.
    + now intros [= <- _].
Qed.

(** A temporary file that was created did not exist before and is empty. *)
Lemma NamedTemporaryFile_inr_inv suffix w file w' :
  NamedTemporaryFile suffix w = (inr file, w') ->
  fs w !! file = None /\
  exists n, w' = set_names_drawn n (set_fs (<[file := File Empty]> (fs w)) w).
Proof.
  unfold NamedTemporaryFile.
  destruct (OS.isdir (fs w) gettempdir); [|discriminate].
  destruct (mkstemp_inner _ _ _ _ _) as [[file'|] n] eqn:Hmk; [|discriminate].
  intros [= <- <-]. split; [|now exists n].
  now apply mkstemp_inner_fresh in Hmk.
Qed.

Lemma sf_write_inr_inv file audio sr w w' :
  on_fs (OS.sf_write file audio sr) w = (inr tt, w') ->
  w' = set_fs (<[file := File (Wav sr audio)]> (fs w)) w.
Proof.
  unfold on_fs, OS.sf_write.
  destruct (OS.entry_error (fs w) file); [discriminate|]. now intros [= <-].
Qed.

Lemma rename_inr_inv src dst w w' :
  on_fs (OS.rename src dst) w = (inr tt, w') ->
  exists c,
    fs w !! src = Some (File c) /\
    w' = set_fs (<[dst := File c]> (delete src (fs w))) w.
Proof.
  unfold on_fs, OS.rename.
  destruct (fs w !! src) as [[c|]|]; try discriminate.
  destruct (OS.entry_error (fs w) dst); [discriminate|].
  intros [= <-]. now exists c.
Qed.

(** One row that went through: its audio was generated, and the only
    change to the filesystem is the WAV file at the row's final path. *)
Lemma synth_row_inr_inv data txt filename w p w' :
  synth_row data txt filename w = (inr p, w') ->
  exists out w1,
    generate data txt w = (inr out, w1) /\
    p = join gettempdir filename /\
    fs w' = <[p := File (Wav out.1 out.2)]> (fs w) /\
    tts_inference w' = tts_inference w1 /\
    calls w' = calls w1 /\
    root_logger w' = root_logger w /\
    background_tasks w' = background_tasks w.
Proof.
  unfold synth_row. intros Hrow.
  apply bind_inr_inv in Hrow as ([sr audio] & w1 & Hgen & Hrow).
  apply bind_inr_inv in Hrow as (temp & w2 & Htemp & Hrow).
  apply bind_inr_inv in Hrow as ([] & w3 & Hwrite & Hrow).
  apply bind_inr_inv in Hrow as ([] & w4 & Hren & Hret).
  injection Hret as <- <-.
  apply NamedTemporaryFile_inr_inv in Htemp as (Hfresh & n & ->).
  apply sf_write_inr_inv in Hwrite as ->.
  apply rename_inr_inv in Hren as (c & Hc & ->).
  simpl in Hc. rewrite lookup_insert_eq in Hc. injection Hc as <-.
  pose proof (generate_same_fs data txt w) as Hfs.
  pose proof (generate_inr_inv _ _ _ _ _ Hgen) as (args & _ & _ & Hw1).
  rewrite Hgen in Hfs. unfold same in Hfs. simpl in Hfs.
  pose proof (f_equal root_logger Hw1) as Hlog.
  pose proof (f_equal background_tasks Hw1) as Htasks. simpl in Hlog, Htasks.
  exists (sr, audio), w1. simpl.
  split; [exact Hgen|]. split; [reflexivity|].
  split; [|now repeat split].
  rewrite insert_insert_eq, delete_insert_id by congruence.
  now rewrite Hfs.
Qed.

(** *** Files written in a row *)

Lemma write_all_lookup (f : filesystem) l p :
  write_all f l !! p =
  match last_write l p with
  | Some out => Some (File (Wav out.1 out.2))
  | None => f !! p
  end.
Proof.
  revert f. induction l as [|[q out] rest IH]; intros f; [reflexivity|].
  unfold write_all in *. simpl. rewrite IH.
  destruct (last_write rest p); [reflexivity|].
  destruct (decide (q = p)) as [->|Hne].
  - now rewrite lookup_insert_eq.
  - now rewrite lookup_insert_ne.
Qed.




(** *** The loop over the rows *)

Lemma engine_outputs_length data texts (eng eng' : engine) outs :
  engine_outputs data texts eng = Some (outs, eng') ->
  length outs = length texts.
Proof.
  revert eng outs. induction texts as [|txt rest IH]; intros eng outs; simpl.
  - now intros [= <- _].
  - destruct (row_args data txt) as [args|]; [|discriminate].
    destruct (infer args eng) as [[x|out] e1]; [discriminate|].
    destruct (engine_outputs data rest e1) as [[outs' e2]|] eqn:Hrest;
      [|discriminate].
    intros [= <- <-]. simpl. f_equal. eapply IH, Hrest.
Qed.

(** A loop that went through all rows: the engine produced one output per
    row, in row order; the paths are the filenames under the temporary
    directory, in row order; the filesystem changed by these writes only;
    nothing was logged or scheduled. *)
Lemma batch_loop_inr_inv data rows acc w paths w' :
  batch_loop data rows acc w = (inr paths, w') ->
  exists outs,
    engine_outputs data rows.*1 (tts_inference w) = Some (outs, tts_inference w') /\
    paths = acc ++ fmap (join gettempdir) rows.*2 /\
    fs w' = write_all (fs w) (zip (fmap (join gettempdir) rows.*2) outs) /\
    root_logger w' = root_logger w /\
    background_tasks w' = background_tasks w.
Proof.
  revert acc w. induction rows as [|[txt filename] rest IH]; intros acc w.
  - simpl. intros [= <- <-]. exists []. simpl.
    rewrite app_nil_r. now repeat split.
  - cbn [batch_loop]. intros Hloop.
    apply bind_inr_inv in Hloop as (p & w1 & Hrow & Hloop).
    apply synth_row_inr_inv in Hrow
      as (out & wg & Hgen & -> & Hfs & Heng & _ & Hlog & Htasks).
    apply generate_inr_inv in Hgen as (args & Hargs & Hinfer & _).
    apply IH in Hloop as (outs & Houts & -> & Hfs' & Hlog' & Htasks').
    exists (out :: outs). rewrite !fmap_cons. cbn [engine_outputs fst snd].
    rewrite Hargs, Hinfer, <- Heng, Houts.
    split; [reflexivity|]. split; [now rewrite <- app_assoc|].
    split; [|split; congruence].
    rewrite Hfs', Hfs. reflexivity.
Qed.

Lemma batch_loop_app data rows1 rows2 acc w :
  batch_loop data (rows1 ++ rows2) acc w =
  bind (batch_loop data rows1 acc) (batch_loop data rows2) w.
Proof.
  revert acc w. induction rows1 as [|[txt filename] rest IH]; intros acc w.
  - reflexivity.
  - simpl. unfold bind in *.
    destruct (synth_row data txt filename w) as [[x|p] w1]; [reflexivity|].
    apply IH.
Qed.

(** *** The zip of the rows *)

Lemma zip_entries_files (f : filesystem) paths (holds : string -> content) :
  (forall p, p ∈ paths -> f !! p = Some (File (holds p))) ->
  OS.zip_entries f paths = (None, fmap (fun p => (basename p, holds p)) paths).
Proof.
  induction paths as [|p rest IH]; intros Hall; [reflexivity|].
  simpl. unfold OS.zip_entry. rewrite (Hall p) by apply list_elem_of_here.
  rewrite IH; [reflexivity|].
  intros q Hq. apply Hall. now apply list_elem_of_further.
Qed.

Lemma last_write_zip_Some paths outs p :
  length outs = length paths -> p ∈ paths ->
  is_Some (last_write (zip paths outs) p).
Proof.
  revert outs. induction paths as [|q rest IH]; intros [|out outs] Hlen Hp;
    try discriminate; try (now apply elem_of_nil in Hp).
  simpl. destruct (last_write (zip rest outs) p) eqn:Hl; [eauto|].
  apply elem_of_cons in Hp as [->|Hp].
  - rewrite decide_True by reflexivity. eauto.
  - destruct (IH outs ltac:(simpl in Hlen; lia) Hp) as [o Ho]. congruence.
Qed.

(** After a loop that went through, and once a name for the zip is found,
    the zip is written without fail; it holds one entry per row, in row
    order, each with what its path holds then. *)
Lemma batch_artifacts_ok data rows w paths w1 zip_file w2 :
  batch_loop data rows [] w = (inr paths, w1) ->
  NamedTemporaryFile ".zip" w1 = (inr zip_file, w2) ->
  exists outs,
    engine_outputs data rows.*1 (tts_inference w) = Some (outs, tts_inference w1) /\
    paths = fmap (join gettempdir) rows.*2 /\
    fs w1 = write_all (fs w) (zip paths outs) /\
    fs w1 !! zip_file = None /\
    batch_artifacts data rows w =
      (inr (paths, zip_file),
       set_fs (<[zip_file := File (Zip (zipped paths outs))]> (fs w1)) w2).
Proof.
  intros Hloop Hzip.
  pose proof (batch_loop_inr_inv _ _ _ _ _ _ Hloop)
    as (outs & Houts & Hpaths & Hfs & _ & _).
  simpl in Hpaths. subst paths.
  pose proof (engine_outputs_length _ _ _ _ _ Houts) as Hlen.
  rewrite length_fmap in Hlen.
  set (paths := fmap (join gettempdir) rows.*2) in *.
  assert (length outs = length paths) as Hlen'.
  { unfold paths. now rewrite !length_fmap. }
  pose proof (NamedTemporaryFile_inr_inv _ _ _ _ Hzip) as (Hfresh & n & Hw2).
  exists outs. repeat (split; [first [assumption|reflexivity]|]).
  unfold batch_artifacts.
  rewrite (bind_inr _ _ _ _ _ Hloop), (bind_inr _ _ _ _ _ Hzip).
  unfold bind, on_fs, OS.zip_write, ret.
  rewrite (zip_entries_files _ _
    (fun p => match last_write (zip paths outs) p with
              | Some out => Wav out.1 out.2
              | None => Empty
              end)).
  - subst w2. simpl. fold (zipped paths outs).
    now rewrite insert_insert_eq.
  - intros p Hp. subst w2. simpl.
    destruct (last_write_zip_Some _ _ _ Hlen' Hp) as [out Hout].
    assert (fs w1 !! p = Some (File (Wav out.1 out.2))) as Hheld.
    { rewrite Hfs, write_all_lookup. now rewrite Hout. }
    rewrite lookup_insert_ne by congruence.
    now rewrite Hout.
Qed.

Lemma batch_artifacts_inr_inv data rows w paths zip_file w3 :
  batch_artifacts data rows w = (inr (paths, zip_file), w3) ->
  exists w1 w2,
    batch_loop data rows [] w = (inr paths, w1) /\
    NamedTemporaryFile ".zip" w1 = (inr zip_file, w2).
Proof.
  unfold batch_artifacts. intros Hart.
  apply bind_inr_inv in Hart as (paths' & w1 & Hloop & Hart).
  apply bind_inr_inv in Hart as (zf & w2 & Hzip & Hart).
  apply bind_inr_inv in Hart as ([] & w2' & _ & Hret).
  injection Hret as <- <- _. now exists w1, w2.
Qed.

(** *** Scheduling the cleanup *)

Lemma add_tasks_run paths w : add_tasks paths w = (inr tt, with_tasks paths w).
Proof.
  revert w. induction paths as [|p rest IH]; intros w.
  - unfold with_tasks. simpl. rewrite app_nil_r. now destruct w.
  - simpl. unfold bind, add_task, modify. rewrite IH.
    unfold with_tasks. simpl. now rewrite <- app_assoc.
Qed.

Lemma resolve_character_world data w r w' :
  resolve_character data w = (r, w') -> w' = w.
Proof.
  intros Hres. pose proof (stable_resolve_character eq data w) as Hst.
  rewrite Hres in Hst. now symmetry.
Qed.

(** *** Which loads a handler makes *)






Lemma stable_batch_loop R `{!PreOrder R} data rows acc :
  (forall txt filename, stable R (synth_row data txt filename)) ->
  stable R (batch_loop data rows acc).
Proof.
  intros Hrow. revert acc. induction rows as [|[txt filename] rest IH];
    intros acc; simpl.
  - apply (stable_ret R).
  - apply (stable_bind R); [apply Hrow|]. intros p. apply IH.
Qed.






(** *** The single request *)

(** A request that reaches [generate] and fails there. *)
Lemma predict_generate_raises data d w w1 x w2 :
  resolve_character data w = (inr d, w) ->
  swap_weights (sovits_weights d) (gpt_weights d) w = (inr tt, w1) ->
  generate d (text d) w1 = (inl x, w2) ->
  predict data w = (inl (HTTPException 500 "Error during inference"), w2).
Proof.
  intros Hres Hswap Hgen.
  pose proof (generate_inl_inv _ _ _ _ _ Hgen) as ->.
  unfold predict, try_except_KeyError, try_except.
  rewrite (bind_inr _ _ _ _ _ Hres), (bind_inr _ _ _ _ _ Hswap).
  now rewrite (bind_inl _ _ _ _ _ Hgen).
Qed.

Lemma batch_predict_first_row_raises data d txt filename rest w w1 x w2 :
  resolve_character data w = (inr d, w) ->
  swap_weights (sovits_weights d) (gpt_weights d) w = (inr tt, w1) ->
  generate d txt w1 = (inl x, w2) ->
  batch_predict data ((txt, filename) :: rest) w =
    (inl (HTTPException 500 "Error during inference"), w2).
Proof.
  intros Hres Hswap Hgen.
  pose proof (generate_inl_inv _ _ _ _ _ Hgen) as ->.
  unfold batch_predict, try_except_KeyError, try_except.
  rewrite (bind_inr _ _ _ _ _ Hres), (bind_inr _ _ _ _ _ Hswap).
  unfold batch_artifacts. cbn [batch_loop]. unfold synth_row.
  now rewrite (bind_inl _ _ _ _ _
    (bind_inl _ _ _ _ _ (bind_inl _ _ _ _ _ (bind_inl _ _ _ _ _ Hgen)))).
Qed.



(** C9.  When a request reaches the engine and [infer] raises [x], the
    handler logs one ERROR record that carries [str(x)] in its message and
    [x] itself (the traceback of [exc_info=True]), and raises
    [HTTPException(500, "Error during inference")], whose detail is a fixed
    text that does not depend on [x].  The one [infer] call is the only
    call made after the weight swap (nothing is retried); no file is
    written and no cleanup is scheduled. *)
Theorem inference_failure_is_opaque data d w w1 args x (eng : engine) :
  resolve_character data w = (inr d, w) ->
  swap_weights (sovits_weights d) (gpt_weights d) w = (inr tt, w1) ->
  row_args d (text d) = Some args ->
  infer args (tts_inference w1) = (inl x, eng) ->
  predict data w =
    (inl (HTTPException 500 "Error during inference"),
     {| fs := fs w; tts_inference := eng;
        calls := calls w1 ++ [Infer args];
        root_logger := root_logger w ++
          [{| levelname := "ERROR";
              message := "Error during inference: " +:+ exn_str x;
              exc_info := Some x |}];
        background_tasks := background_tasks w;
        names_drawn := names_drawn w1 |}).
Proof.
  intros Hres Hswap Hargs Hinfer.
  rewrite (predict_generate_raises _ _ _ _ _ _ Hres Hswap
             (generate_engine_raises _ _ _ _ _ _ Hargs Hinfer)).
  pose proof (swap_weights_same_fs (sovits_weights d) (gpt_weights d) w) as Hfs.
  pose proof (swap_weights_same_tasks (sovits_weights d) (gpt_weights d) w)
    as Htasks.
  pose proof (swap_weights_same_logger (sovits_weights d) (gpt_weights d) w)
    as Hlog.
  rewrite Hswap in Hfs, Htasks, Hlog. unfold same in *. simpl in *.
  unfold inference_error_record. now rewrite Hfs, Htasks, Hlog.
Qed.

(** C6 (as amended).  When a request reaches [generate] and its
    [prompt_language] (looked up first) or its [text_language] is not a
    key of [LANG_DICT], the [KeyError] is raised inside the
    [try ... except Exception] of the generation: it is logged as an
    inference error and the handler raises
    [HTTPException(500, "Error during inference")].  The
    [except KeyError] branch is not reached, the key is named in the log
    only, and [infer] is not called.  The same holds for [batch_predict] on
    its first row. *)
Theorem unknown_language_is_inference_error data d key txt filename rest w w1 :
  resolve_character data w = (inr d, w) ->
  swap_weights (sovits_weights d) (gpt_weights d) w = (inr tt, w1) ->
  missing_language d = Some key ->
  let w2 :=
    {| fs := fs w1; tts_inference := tts_inference w1; calls := calls w1;
       root_logger := root_logger w1 ++
         [{| levelname := "ERROR";
             message := "Error during inference: " +:+ exn_str (KeyError key);
             exc_info := Some (KeyError key) |}];
       background_tasks := background_tasks w1;
       names_drawn := names_drawn w1 |} in
  predict data w = (inl (HTTPException 500 "Error during inference"), w2) /\
  batch_predict data ((txt, filename) :: rest) w =
    (inl (HTTPException 500 "Error during inference"), w2).
Proof.
  intros Hres Hswap Hkey w2. split.
  - eapply (predict_generate_raises _ _ _ _ _ _ Hres Hswap).
    now apply generate_missing_language.
  - eapply (batch_predict_first_row_raises _ _ _ _ _ _ _ _ _ Hres Hswap).
    now apply generate_missing_language.
Qed.


(** *** The batch request *)

Lemma resolve_character_zip_filename data w d w' :
  resolve_character data w = (inr d, w') ->
  zip_filename d = zip_filename data.
Proof.
  unfold resolve_character. destruct (character_name data) as [name|].
  - intros Hres.
    apply bind_inr_inv in Hres as (a & wa & _ & Hres).
    apply bind_inr_inv in Hres as (t & wt & _ & Hres).
    apply bind_inr_inv in Hres as (l & wl & _ & Hres).
    apply bind_inr_inv in Hres as (g & wg & _ & Hres).
    apply bind_inr_inv in Hres as (s & ws & _ & Hres).
    now injection Hres as <- _.
  - now intros [= <- _].
Qed.

(** Without [zip_filename] the handler raises when it reads
    [final_zip_path], after the cleanup of the rows was scheduled. *)
Lemma batch_predict_unassigned data d rows w w1 paths zip_file w3 :
  resolve_character data w = (inr d, w) ->
  swap_weights (sovits_weights d) (gpt_weights d) w = (inr tt, w1) ->
  batch_artifacts d rows w1 = (inr (paths, zip_file), w3) ->
  zip_filename d = None ->
  batch_predict data rows w =
    (inl (UnboundLocalError "final_zip_path"), with_tasks paths w3).
Proof.
  intros Hres Hswap Hart Hzip.
  unfold batch_predict, try_except_KeyError, try_except.
  rewrite (bind_inr _ _ _ _ _ Hres), (bind_inr _ _ _ _ _ Hswap).
  rewrite (bind_inr _ _ _ _ _ Hart). rewrite Hzip.
  unfold bind, ret, raise. now rewrite add_tasks_run.
Qed.

(** With [zip_filename] and a rename that goes through, the handler
    answers with the renamed zip and has scheduled the cleanup of the rows
    and of the renamed zip. *)
Lemma batch_predict_renamed data d rows w w1 paths zip_file w3 name w4 :
  resolve_character data w = (inr d, w) ->
  swap_weights (sovits_weights d) (gpt_weights d) w = (inr tt, w1) ->
  batch_artifacts d rows w1 = (inr (paths, zip_file), w3) ->
  zip_filename d = Some name ->
  on_fs (OS.rename zip_file (join gettempdir name)) w3 = (inr tt, w4) ->
  batch_predict data rows w =
    (inr (FileResponse (join gettempdir name) "application/zip"),
     with_tasks (paths ++ [join gettempdir name]) w4).
Proof.
  intros Hres Hswap Hart Hzip Hren.
  unfold batch_predict, try_except_KeyError, try_except.
  rewrite (bind_inr _ _ _ _ _ Hres), (bind_inr _ _ _ _ _ Hswap).
  rewrite (bind_inr _ _ _ _ _ Hart). rewrite Hzip. cbv zeta.
  unfold bind at 1. unfold bind at 1. rewrite Hren.
  unfold bind, ret, add_task, modify. rewrite add_tasks_run.
  unfold with_tasks. simpl. now rewrite fmap_app, app_assoc.
Qed.

(** What is known when [batch_predict] answered with a [FileResponse]. *)
Lemma batch_predict_FileResponse_inv data rows w path media w' :
  batch_predict data rows w = (inr (FileResponse path media), w') ->
  exists d w1 paths zip_file w3 name w4,
    resolve_character data w = (inr d, w) /\
    swap_weights (sovits_weights d) (gpt_weights d) w = (inr tt, w1) /\
    batch_artifacts d rows w1 = (inr (paths, zip_file), w3) /\
    zip_filename d = Some name /\
    on_fs (OS.rename zip_file (join gettempdir name)) w3 = (inr tt, w4) /\
    path = join gettempdir name /\
    w' = with_tasks (paths ++ [path]) w4.
Proof.
  intros Hrun.
  destruct (resolve_character data w) as [[x|d] w0] eqn:Hres.
  { unfold batch_predict, try_except_KeyError, try_except in Hrun.
    rewrite (bind_inl _ _ _ _ _ Hres) in Hrun. now destruct x. }
  pose proof (resolve_character_world _ _ _ _ Hres) as ->.
  destruct (swap_weights (sovits_weights d) (gpt_weights d) w)
    as [[x|[]] w1] eqn:Hswap.
  { unfold batch_predict, try_except_KeyError, try_except in Hrun.
    rewrite (bind_inr _ _ _ _ _ Hres), (bind_inl _ _ _ _ _ Hswap) in Hrun.
    now destruct x. }
  destruct (batch_artifacts d rows w1) as [[x|[paths zip_file]] w3] eqn:Hart.
  { unfold batch_predict, try_except_KeyError, try_except in Hrun.
    rewrite (bind_inr _ _ _ _ _ Hres), (bind_inr _ _ _ _ _ Hswap),
      (bind_inl _ _ _ _ _ Hart) in Hrun.
    now destruct x. }
  destruct (zip_filename d) as [name|] eqn:Hzip.
  2:{ rewrite (batch_predict_unassigned _ _ _ _ _ _ _ _ Hres Hswap Hart Hzip)
        in Hrun. discriminate. }
  destruct (on_fs (OS.rename zip_file (join gettempdir name)) w3)
    as [[x|[]] w4] eqn:Hren.
  { unfold batch_predict, try_except_KeyError, try_except in Hrun.
    rewrite (bind_inr _ _ _ _ _ Hres), (bind_inr _ _ _ _ _ Hswap),
      (bind_inr _ _ _ _ _ Hart), Hzip in Hrun.
    cbv zeta in Hrun. unfold bind at 1 in Hrun. unfold bind at 1 in Hrun.
    rewrite Hren in Hrun. now destruct x. }
  rewrite (batch_predict_renamed _ _ _ _ _ _ _ _ _ _ Hres Hswap Hart Hzip Hren)
    in Hrun.
  injection Hrun as <- <- <-.
  now exists d, w1, paths, zip_file, w3, name, w4.
Qed.

Lemma batch_loop_calls data rows acc w paths w' :
  batch_loop data rows acc w = (inr paths, w') ->
  exists cs,
    calls w' = calls w ++ cs /\ Forall is_infer cs /\
    length cs = length rows.
Proof.
  revert acc w. induction rows as [|[txt filename] rest IH]; intros acc w.
  - simpl. intros [= <- <-]. exists []. rewrite app_nil_r.
    now repeat constructor.
  - cbn [batch_loop]. intros Hloop.
    apply bind_inr_inv in Hloop as (p & w1 & Hrow & Hloop).
    apply synth_row_inr_inv in Hrow
      as (out & wg & Hgen & _ & _ & _ & Hcalls & _ & _).
    apply generate_inr_inv in Hgen as (args & _ & _ & Hwg).
    apply (f_equal calls) in Hwg. simpl in Hwg.
    apply IH in Hloop as (cs & Hcs & Hinf & Hlen).
    exists (Infer args :: cs). split; [|split].
    + rewrite Hcs, Hcalls, Hwg, <- app_assoc. reflexivity.
    + constructor; [exact I|assumption].
    + simpl. now rewrite Hlen.
Qed.

Lemma generate_inl_calls data txt w x w' :
  generate data txt w = (inl x, w') ->
  exists cs, calls w' = calls w ++ cs /\ Forall is_infer cs /\
             (length cs <= 1)%nat.
Proof.
  intros Hgen. destruct (row_args data txt) as [args|] eqn:Hargs.
  - destruct (infer args (tts_inference w)) as [[x'|out'] eng] eqn:Hinfer.
    + rewrite (generate_engine_raises _ _ _ _ _ _ Hargs Hinfer) in Hgen.
      injection Hgen as _ <-. exists [Infer args]. simpl.
      split; [reflexivity|]. split; [now repeat constructor|lia].
    + rewrite (generate_ok _ _ _ _ _ _ Hargs Hinfer) in Hgen. discriminate.
  - apply row_args_missing_language in Hargs as [key Hkey].
    rewrite (generate_missing_language _ _ _ _ Hkey) in Hgen.
    injection Hgen as _ <-. exists []. simpl. rewrite app_nil_r.
    split; [reflexivity|]. split; [constructor|lia].
Qed.

(** A batch whose rows [pre] went through and whose next row fails in
    [generate]. *)
Lemma batch_predict_row_raises data d pre txt filename post w w1 paths w2 x w3 :
  resolve_character data w = (inr d, w) ->
  swap_weights (sovits_weights d) (gpt_weights d) w = (inr tt, w1) ->
  batch_loop d pre [] w1 = (inr paths, w2) ->
  generate d txt w2 = (inl x, w3) ->
  batch_predict data (pre ++ (txt, filename) :: post) w =
    (inl (HTTPException 500 "Error during inference"), w3).
Proof.
  intros Hres Hswap Hpre Hgen.
  pose proof (generate_inl_inv _ _ _ _ _ Hgen) as ->.
  unfold batch_predict, try_except_KeyError, try_except.
  rewrite (bind_inr _ _ _ _ _ Hres), (bind_inr _ _ _ _ _ Hswap).
  assert (batch_loop d (pre ++ (txt, filename) :: post) [] w1 =
          (inl (HTTPException 500 "Error during inference"), w3)) as Hloop.
  { rewrite batch_loop_app, (bind_inr _ _ _ _ _ Hpre).
    cbn [batch_loop]. unfold synth_row.
    now rewrite (bind_inl _ _ _ _ _ (bind_inl _ _ _ _ _ Hgen)). }
  unfold batch_artifacts.
  now rewrite (bind_inl _ _ _ _ _ (bind_inl _ _ _ _ _ Hloop)).
Qed.

Lemma synth_row_same_tasks data txt filename :
  stable (same background_tasks) (synth_row data txt filename).
Proof.
  unfold synth_row.
  apply (stable_bind _); [apply generate_same_tasks|]. frame.
Qed.

Lemma batch_artifacts_same_tasks data rows :
  stable (same background_tasks) (batch_artifacts data rows).
Proof.
  unfold batch_artifacts. apply (stable_bind _).
  - apply (stable_batch_loop _). apply synth_row_same_tasks.
  - frame.
Qed.


(** C2 (where the code departs from the claim).  When all rows went
    through and the zip was written but the request has no
    [zip_filename], [final_zip_path] was never assigned: the handler has
    scheduled the cleanup of the row artifacts and then raises
    [UnboundLocalError] at the cleanup call for the zip.  No cleanup is
    scheduled for the zip, which stays on disk under its temporary name,
    and no response is returned. *)
Theorem zip_cleanup_target_unassigned data d rows w w1 paths zip_file w3 :
  resolve_character data w = (inr d, w) ->
  swap_weights (sovits_weights d) (gpt_weights d) w = (inr tt, w1) ->
  batch_artifacts d rows w1 = (inr (paths, zip_file), w3) ->
  zip_filename data = None ->
  exists w',
    batch_predict data rows w =
      (inl (UnboundLocalError "final_zip_path"), w') /\
    background_tasks w' = background_tasks w ++ fmap RemoveTempFile paths /\
    fs w' = fs w3 /\
    exists entries, fs w' !! zip_file = Some (File (Zip entries)).
Proof.
  intros Hres Hswap Hart Hnone.
  rewrite <- (resolve_character_zip_filename _ _ _ _ Hres) in Hnone.
  exists (with_tasks paths w3).
  split; [now apply (batch_predict_unassigned _ d _ _ w1 _ zip_file)|].
  pose proof (swap_weights_same_tasks (sovits_weights d) (gpt_weights d) w)
    as Ht1.
  pose proof (batch_artifacts_same_tasks d rows w1) as Ht2.
  rewrite Hswap in Ht1. rewrite Hart in Ht2. unfold same in *. simpl in *.
  split; [now rewrite Ht1, Ht2|]. split; [reflexivity|].
  destruct (batch_artifacts_inr_inv _ _ _ _ _ _ Hart) as (w2 & w2' & Hloop & Hzip).
  destruct (batch_artifacts_ok _ _ _ _ _ _ _ Hloop Hzip)
    as (outs & _ & _ & _ & _ & Hrun).
  rewrite Hart in Hrun. injection Hrun as ->.
  eexists. simpl. apply lookup_insert_eq.
Qed.

(** C3 (as amended).  In a batch whose rows before row k went through
    and whose row k fails in [generate], the handler raises
    [HTTPException(500, "Error during inference")] at row k: the rows
    after k are not touched (the filesystem is the one the rows before k
    left, and at most one [infer] call per row up to k was made).  No
    cleanup is scheduled at all: [background_tasks] is as the handler found
    it, and the artifacts of the rows before k stay on disk. *)
Theorem failing_row_aborts_batch data d pre txt filename post w w1 paths w2 x w3 :
  resolve_character data w = (inr d, w) ->
  swap_weights (sovits_weights d) (gpt_weights d) w = (inr tt, w1) ->
  batch_loop d pre [] w1 = (inr paths, w2) ->
  generate d txt w2 = (inl x, w3) ->
  batch_predict data (pre ++ (txt, filename) :: post) w =
    (inl (HTTPException 500 "Error during inference"), w3) /\
  fs w3 = fs w2 /\
  background_tasks w3 = background_tasks w /\
  (exists cs, calls w3 = calls w1 ++ cs /\ Forall is_infer cs /\
              (length cs <= length pre + 1)%nat) /\
  paths = fmap (join gettempdir) pre.*2 /\
  (forall p, p ∈ paths ->
     exists out, fs w3 !! p = Some (File (Wav out.1 out.2))).
Proof.
  intros Hres Hswap Hpre Hgen.
  split; [now apply (batch_predict_row_raises _ d _ _ _ _ _ w1 paths w2 x)|].
  pose proof (generate_same_fs d txt w2) as Hfs.
  pose proof (generate_same_tasks d txt w2) as Ht3.
  pose proof (swap_weights_same_tasks (sovits_weights d) (gpt_weights d) w)
    as Ht1.
  rewrite Hgen in Hfs, Ht3. rewrite Hswap in Ht1.
  unfold same in *. simpl in *.
  destruct (batch_loop_inr_inv _ _ _ _ _ _ Hpre)
    as (outs & Houts & Hpaths & Hfs2 & _ & Ht2).
  destruct (batch_loop_calls _ _ _ _ _ _ Hpre) as (cs & Hcs & Hinf & Hlen).
  destruct (generate_inl_calls _ _ _ _ _ Hgen) as (cs' & Hcs' & Hinf' & Hlen').
  simpl in Hpaths.
  split; [now symmetry|]. split; [congruence|]. split; [|split; [assumption|]].
  - exists (cs ++ cs'). split; [|split].
    + now rewrite Hcs', Hcs, app_assoc.
    + now apply Forall_app.
    + rewrite length_app. lia.
  - intros p Hp. rewrite <- Hfs, Hfs2, write_all_lookup.
    pose proof (engine_outputs_length _ _ _ _ _ Houts) as Hl.
    rewrite length_fmap in Hl.
    assert (length outs = length (fmap (join gettempdir) pre.*2)) as Hl'
      by now rewrite !length_fmap.
    rewrite Hpaths in Hp.
    destruct (last_write_zip_Some _ _ _ Hl' Hp) as [out Hout].
    exists out. now rewrite Hout.
Qed.


(** *** Rows that name the same file *)





End ServerFacts.

(** ** The handlers run on the demo deployment *)

Section DemoRuns.
Import Demo.
#[local] Existing Instance demo_engine.
#[local] Existing Instance demo_host.



(** C9, witness: the demo engine refuses the empty text. *)
Lemma inference_failure_witness :
  resolve_character (request (Some "demo") "" "中文" None) w_demo =
    (inr (resolved "" "中文" None), w_demo) /\
  swap_weights (Some "demo.pth") (Some "demo.ckpt") w_demo = (inr tt, w_demo) /\
  row_args (resolved "" "中文" None) "" = Some (args_of "") /\
  infer (args_of "") (tts_inference w_demo) =
    (inl (OtherException "ValueError" "empty text"), tts_inference w_demo) /\
  predict (request (Some "demo") "" "中文" None) w_demo =
    (inl (HTTPException 500 "Error during inference"),
     {| fs := fs w_demo; tts_inference := tts_inference w_demo;
        calls := calls w_demo ++ [Infer (args_of "")];
        root_logger := root_logger w_demo ++
          [{| levelname := "ERROR";
              message := "Error during inference: " +:+
                         exn_str (OtherException "ValueError" "empty text");
              exc_info := Some (OtherException "ValueError" "empty text") |}];
        background_tasks := background_tasks w_demo;
        names_drawn := names_drawn w_demo |}).
Proof.
  do 4 (split; [vm_compute; reflexivity|]).
  apply (inference_failure_is_opaque
           (request (Some "demo") "" "中文" None) (resolved "" "中文" None)
           w_demo w_demo (args_of "")
           (OtherException "ValueError" "empty text")
           (tts_inference w_demo));
    vm_compute; reflexivity.
Defined.

(** C6, witness: [klingon] is not a key of [LANG_DICT]. *)
Lemma unknown_language_witness :
  resolve_character (request (Some "demo") "hi" "klingon" None) w_demo =
    (inr (resolved "hi" "klingon" None), w_demo) /\
  swap_weights (Some "demo.pth") (Some "demo.ckpt") w_demo = (inr tt, w_demo) /\
  missing_language (resolved "hi" "klingon" None) = Some (Some "klingon") /\
  predict (request (Some "demo") "hi" "klingon" None) w_demo =
    (inl (HTTPException 500 "Error during inference"),
     {| fs := fs w_demo; tts_inference := tts_inference w_demo;
        calls := calls w_demo;
        root_logger := root_logger w_demo ++
          [{| levelname := "ERROR";
              message := "Error during inference: " +:+
                         exn_str (KeyError (Some "klingon"));
              exc_info := Some (KeyError (Some "klingon")) |}];
        background_tasks := background_tasks w_demo;
        names_drawn := names_drawn w_demo |}).
Proof.
  do 3 (split; [vm_compute; reflexivity|]).
  apply (unknown_language_is_inference_error
           (request (Some "demo") "hi" "klingon" None)
           (resolved "hi" "klingon" None) (Some "klingon")
           "a" "a.wav" [] w_demo w_demo);
    vm_compute; reflexivity.
Defined.

(** C6, counterexample.  The character resolves, the text language
    [klingon] is not a key of [LANG_DICT]; the handler raises the opaque
    500 and does not answer with the parameter error that would name the
    key. *)
Lemma unknown_language_not_missing_parameter :
  LANG_DICT !! "klingon" = None /\
  (predict (request (Some "demo") "hi" "klingon" None) w_demo).1 =
    inl (HTTPException 500 "Error during inference") /\
  (predict (request (Some "demo") "hi" "klingon" None) w_demo).1 <>
    inr (missing_parameter (Some "klingon")).
Proof.
  split; [vm_compute; reflexivity|]. split; [vm_compute; reflexivity|].
  vm_compute. discriminate.
Qed.


(** C2, witness: two rows, no [zip_filename]. *)
Lemma zip_cleanup_unassigned_witness :
  resolve_character (request (Some "demo") "" "中文" None) w_demo =
    (inr (resolved "" "中文" None), w_demo) /\
  swap_weights (Some "demo.pth") (Some "demo.ckpt") w_demo = (inr tt, w_demo) /\
  batch_artifacts (resolved "" "中文" None) rows_ab w_demo =
    (inr (["/tmp/a.wav"; "/tmp/b.wav"], "/tmp/tmp2.zip"),
     run (batch_artifacts (resolved "" "中文" None) rows_ab) w_demo) /\
  zip_filename (request (Some "demo") "" "中文" None) = None /\
  exists w',
    batch_predict (request (Some "demo") "" "中文" None) rows_ab w_demo =
      (inl (UnboundLocalError "final_zip_path"), w') /\
    background_tasks w' =
      background_tasks w_demo ++
      fmap RemoveTempFile ["/tmp/a.wav"; "/tmp/b.wav"] /\
    fs w' = fs (run (batch_artifacts (resolved "" "中文" None) rows_ab) w_demo) /\
    exists entries, fs w' !! "/tmp/tmp2.zip" = Some (File (Zip entries)).
Proof.
  do 4 (split; [vm_compute; reflexivity|]).
  apply (zip_cleanup_target_unassigned
           (request (Some "demo") "" "中文" None) (resolved "" "中文" None)
           rows_ab w_demo w_demo ["/tmp/a.wav"; "/tmp/b.wav"] "/tmp/tmp2.zip"
           (run (batch_artifacts (resolved "" "中文" None) rows_ab) w_demo));
    vm_compute; reflexivity.
Defined.

(** C3, witness: the second of three rows has the empty text. *)
Lemma failing_row_witness :
  resolve_character (request (Some "demo") "" "中文" (Some "out.zip")) w_demo =
    (inr (resolved "" "中文" (Some "out.zip")), w_demo) /\
  swap_weights (Some "demo.pth") (Some "demo.ckpt") w_demo = (inr tt, w_demo) /\
  batch_loop (resolved "" "中文" (Some "out.zip")) [("a", "a.wav")] [] w_demo =
    (inr ["/tmp/a.wav"],
     run (batch_loop (resolved "" "中文" (Some "out.zip")) [("a", "a.wav")] [])
       w_demo) /\
  generate (resolved "" "中文" (Some "out.zip")) ""
    (run (batch_loop (resolved "" "中文" (Some "out.zip")) [("a", "a.wav")] [])
       w_demo) =
    (inl (HTTPException 500 "Error during inference"),
     run (generate (resolved "" "中文" (Some "out.zip")) "")
       (run (batch_loop (resolved "" "中文" (Some "out.zip"))
               [("a", "a.wav")] []) w_demo)) /\
  batch_predict (request (Some "demo") "" "中文" (Some "out.zip"))
    ([("a", "a.wav")] ++ ("", "b.wav") :: [("cc", "c.wav")]) w_demo =
    (inl (HTTPException 500 "Error during inference"),
     run (generate (resolved "" "中文" (Some "out.zip")) "")
       (run (batch_loop (resolved "" "中文" (Some "out.zip"))
               [("a", "a.wav")] []) w_demo)).
Proof.
  do 4 (split; [vm_compute; reflexivity|]).
  apply (failing_row_aborts_batch
           (request (Some "demo") "" "中文" (Some "out.zip"))
           (resolved "" "中文" (Some "out.zip"))
           [("a", "a.wav")] "" "b.wav" [("cc", "c.wav")]
           w_demo w_demo ["/tmp/a.wav"]
           (run (batch_loop (resolved "" "中文" (Some "out.zip"))
                   [("a", "a.wav")] []) w_demo)
           (HTTPException 500 "Error during inference"));
    vm_compute; reflexivity.
Defined.

(** C3, counterexample.  Row 2 of 3 fails.  The artifact of row 1 is on
    disk, row 3 has none, and nothing is scheduled: the cleanup list is
    empty, not the cleanup of the artifact of row 1. *)
Lemma failing_row_schedules_no_cleanup :
  (batch_predict (request (Some "demo") "" "中文" (Some "out.zip"))
     rows_fail w_demo).1 =
    inl (HTTPException 500 "Error during inference") /\
  fs (run (batch_predict (request (Some "demo") "" "中文" (Some "out.zip"))
             rows_fail) w_demo) !! "/tmp/a.wav" =
    Some (File (Wav 32000 [1])) /\
  fs (run (batch_predict (request (Some "demo") "" "中文" (Some "out.zip"))
             rows_fail) w_demo) !! "/tmp/c.wav" = None /\
  background_tasks
    (run (batch_predict (request (Some "demo") "" "中文" (Some "out.zip"))
            rows_fail) w_demo) = [] /\
  background_tasks
    (run (batch_predict (request (Some "demo") "" "中文" (Some "out.zip"))
            rows_fail) w_demo) <> [RemoveTempFile "/tmp/a.wav"].
Proof.
  do 4 (split; [vm_compute; reflexivity|]). vm_compute. discriminate.
Qed.




End DemoRuns.


(** ** More facts about the cleanup *)

Section CleanupFacts.
Implicit Types (f : filesystem) (path : string).


Lemma remove_temp_file_file path f c :
  f !! path = Some (File c) ->
  remove_temp_file path f = (inr tt, delete path f).
Proof.
  intros Hp. unfold remove_temp_file, OS.isdir, OS.remove. now rewrite Hp.
Qed.





End CleanupFacts.

(** ** More facts about the handlers *)

Section HandlerFacts.
Context `{!TTSInference} `{!Host}.
Import PosixPath.
Local Open Scope py_scope.
Implicit Types (data : TTSModelRequest) (w : world).

Lemma try_except_KeyError_FileResponse (m : M world response) w path media w' :
  try_except_KeyError m (fun key => ret (missing_parameter key)) w =
    (inr (FileResponse path media), w') ->
  m w = (inr (FileResponse path media), w').
Proof.
  unfold try_except_KeyError, try_except.
  destruct (m w) as [[x|a] w1]; [|now intros [= <- <-]].
  destruct x; discriminate.
Qed.

(** What is known when [predict] answered with a [FileResponse]. *)
Lemma predict_FileResponse_inv data w path media w' :
  predict data w = (inr (FileResponse path media), w') ->
  exists d w1 args out,
    resolve_character data w = (inr d, w) /\
    swap_weights (sovits_weights d) (gpt_weights d) w = (inr tt, w1) /\
    row_args d (text d) = Some args /\
    infer args (tts_inference w1) = (inr out, tts_inference w') /\
    media = "audio/wav" /\
    fs w !! path = None /\
    fs w' = <[path := File (Wav out.1 out.2)]> (fs w) /\
    background_tasks w' = background_tasks w ++ [RemoveTempFile path] /\
    calls w' = calls w1 ++ [Infer args] /\
    root_logger w' = root_logger w.
Proof.
  unfold predict. intros Hrun.
  apply try_except_KeyError_FileResponse in Hrun.
  apply bind_inr_inv in Hrun as (d & w0 & Hres & Hrun).
  pose proof (resolve_character_world _ _ _ _ Hres) as ->.
  apply bind_inr_inv in Hrun as ([] & w1 & Hswap & Hrun).
  apply bind_inr_inv in Hrun as ([sr audio] & w2 & Hgen & Hrun).
  apply bind_inr_inv in Hrun as (temp & w3 & Htemp & Hrun).
  apply bind_inr_inv in Hrun as ([] & w4 & Hwrite & Hrun).
  apply bind_inr_inv in Hrun as ([] & w5 & Htask & Hret).
  injection Hret as <- <- <-. injection Htask as <-.
  apply sf_write_inr_inv in Hwrite as ->.
  apply NamedTemporaryFile_inr_inv in Htemp as (Hfresh & n & ->).
  apply generate_inr_inv in Hgen as (args & Hargs & Hinfer & Hw2).
  pose proof (swap_weights_same_fs (sovits_weights d) (gpt_weights d) w) as Hfs.
  pose proof (swap_weights_same_tasks (sovits_weights d) (gpt_weights d) w)
    as Htasks.
  pose proof (swap_weights_same_logger (sovits_weights d) (gpt_weights d) w)
    as Hlog.
  rewrite Hswap in Hfs, Htasks, Hlog. unfold same in *. simpl in *.
  pose proof (f_equal fs Hw2) as Hfs2.
  pose proof (f_equal background_tasks Hw2) as Htasks2.
  pose proof (f_equal calls Hw2) as Hcalls2.
  pose proof (f_equal root_logger Hw2) as Hlog2. simpl in *.
  exists d, w1, args, (sr, audio). simpl.
  split; [assumption|]. split; [assumption|]. split; [assumption|].
  split; [assumption|]. split; [reflexivity|].
  split; [congruence|].
  split; [rewrite insert_insert_eq; congruence|].
  split; [congruence|]. split; congruence.
Qed.

(** X2.  When [predict] answers with a file: the file did not exist
    before the request; it now holds the WAV of the sample rate and the
    samples that the engine's one [infer] call returned; nothing else on the
    filesystem changed; the media type is [audio/wav]; and exactly one
    cleanup, that of this file, was added to [background_tasks]. *)
Theorem predict_answers_with_fresh_wav data w path media w' :
  predict data w = (inr (FileResponse path media), w') ->
  exists d w1 args out,
    resolve_character data w = (inr d, w) /\
    swap_weights (sovits_weights d) (gpt_weights d) w = (inr tt, w1) /\
    row_args d (text d) = Some args /\
    infer args (tts_inference w1) = (inr out, tts_inference w') /\
    media = "audio/wav" /\
    fs w !! path = None /\
    fs w' = <[path := File (Wav out.1 out.2)]> (fs w) /\
    background_tasks w' = background_tasks w ++ [RemoveTempFile path] /\
    calls w' = calls w1 ++ [Infer args] /\
    root_logger w' = root_logger w.
Proof.
  intros Hrun.
  destruct (predict_FileResponse_inv _ _ _ _ _ Hrun)
    as (d & w1 & args & out & Hres & Hswap & Hargs & Hinfer & Hmedia &
        Hfresh & Hfs & Htasks & Hcalls & Hlog).
  exists d, w1, args, out.
  split; [exact Hres|]. split; [exact Hswap|]. split; [exact Hargs|].
  split; [exact Hinfer|]. split; [exact Hmedia|]. split; [exact Hfresh|].
  split; [exact Hfs|]. split; [exact Htasks|]. split; [exact Hcalls|exact Hlog].
Qed.

(** X3.  The cleanup that [predict] schedules undoes the request on the
    filesystem: run after the response, the tasks this request added go
    through and leave the filesystem exactly as it was before the request. *)
Theorem predict_cleanup_restores_filesystem data w path media w' :
  predict data w = (inr (FileResponse path media), w') ->
  exists added,
    background_tasks w' = background_tasks w ++ added /\
    run_tasks added (fs w') = (inr tt, fs w).
Proof.
  intros Hrun.
  destruct (predict_FileResponse_inv _ _ _ _ _ Hrun)
    as (d & w1 & args & out & _ & _ & _ & _ & _ & Hfresh & Hfs & Htasks & _).
  exists [RemoveTempFile path]. split; [assumption|].
  cbn [run_tasks run_task].
  rewrite (bind_inr _ _ _ tt (delete path (fs w'))).
  - simpl. unfold ret. now rewrite Hfs, delete_insert_id.
  - apply (remove_temp_file_file _ _ (Wav out.1 out.2)).
    rewrite Hfs. apply lookup_insert_eq.
Qed.


(** What is known when [batch_predict] answered with its zip: how the
    request went, and the filesystem and the tasks it leaves. *)
Lemma batch_answered data rows w path media w' :
  batch_predict data rows w = (inr (FileResponse path media), w') ->
  exists d w1 w2 paths outs name,
    resolve_character data w = (inr d, w) /\
    swap_weights (sovits_weights d) (gpt_weights d) w = (inr tt, w1) /\
    batch_loop d rows [] w1 = (inr paths, w2) /\
    engine_outputs d rows.*1 (tts_inference w1) = Some (outs, tts_inference w2) /\
    paths = fmap (join gettempdir) rows.*2 /\
    zip_filename data = Some name /\
    path = join gettempdir name /\
    media = "application/zip" /\
    fs w' = <[path := File (Zip (zipped paths outs))]>
              (write_all (fs w) (zip paths outs)) /\
    background_tasks w' =
      background_tasks w ++ fmap RemoveTempFile (paths ++ [path]) /\
    calls w' = calls w2 /\
    root_logger w' = root_logger w.
Proof.
  intros Hrun.
  destruct (batch_predict_FileResponse_inv _ _ _ _ _ _ Hrun)
    as (d & w1 & paths & zip_file & w3 & name & w4 &
        Hres & Hswap & Hart & Hzip & Hren & Hpath & Hw').
  assert (media = "application/zip") as Hmedia.
  { pose proof (batch_predict_renamed _ _ _ _ _ _ _ _ _ _
                  Hres Hswap Hart Hzip Hren) as Hfull.
    rewrite Hrun in Hfull. now injection Hfull as _ ->. }
  destruct (batch_artifacts_inr_inv _ _ _ _ _ _ Hart)
    as (w2 & w2' & Hloop & Htemp).
  destruct (batch_artifacts_ok _ _ _ _ _ _ _ Hloop Htemp)
    as (outs & Houts & Hpaths & Hfs & Hfresh & Hrun').
  rewrite Hart in Hrun'. injection Hrun' as Hw3.
  destruct (batch_loop_inr_inv _ _ _ _ _ _ Hloop)
    as (outs' & _ & _ & _ & Hlog2 & Htasks2).
  apply NamedTemporaryFile_inr_inv in Htemp as (_ & n & Hw2').
  apply rename_inr_inv in Hren as (c & Hc & Hw4).
  rewrite Hw3 in Hc. simpl in Hc. rewrite lookup_insert_eq in Hc.
  injection Hc as <-.
  pose proof (swap_weights_same_fs (sovits_weights d) (gpt_weights d) w) as Hfs1.
  pose proof (swap_weights_same_tasks (sovits_weights d) (gpt_weights d) w)
    as Ht1.
  pose proof (swap_weights_same_logger (sovits_weights d) (gpt_weights d) w)
    as Hl1.
  rewrite Hswap in Hfs1, Ht1, Hl1. unfold same in *. simpl in *.
  rewrite (resolve_character_zip_filename _ _ _ _ Hres) in Hzip.
  exists d, w1, w2, paths, outs, name.
  split; [assumption|]. split; [assumption|]. split; [assumption|].
  split; [assumption|]. split; [assumption|]. split; [assumption|].
  split; [assumption|]. split; [assumption|].
  rewrite Hw', Hw4, Hw3, Hw2'. simpl.
  split; [|split; [|split]].
  - rewrite delete_insert_id by assumption. rewrite <- Hpath. congruence.
  - congruence.
  - reflexivity.
  - congruence.
Qed.





(** X9.  An exception raised by a weight loader is not an inference
    failure: it is not logged and not turned into the 500 of the generation.
    A [KeyError] of the loader is answered by the [except KeyError] branch as
    a missing parameter that names the loader's key; any other exception
    leaves the handler as it was raised.  Either way no file was written, no
    cleanup scheduled and [infer] not called. *)
Theorem loader_exception_is_not_an_inference_failure data d rows w x w1 :
  resolve_character data w = (inr d, w) ->
  swap_weights (sovits_weights d) (gpt_weights d) w = (inl x, w1) ->
  predict data w =
    (match x with
     | KeyError key => inr (missing_parameter key)
     | _ => inl x
     end, w1) /\
  batch_predict data rows w =
    (match x with
     | KeyError key => inr (missing_parameter key)
     | _ => inl x
     end, w1) /\
  fs w1 = fs w /\
  root_logger w1 = root_logger w /\
  background_tasks w1 = background_tasks w /\
  calls w1 =
    calls w ++ expected_loads (sovits_weights d) (gpt_weights d) (tts_inference w).
Proof.
  intros Hres Hswap.
  pose proof (swap_weights_same_fs (sovits_weights d) (gpt_weights d) w) as Hfs1.
  pose proof (swap_weights_same_tasks (sovits_weights d) (gpt_weights d) w)
    as Ht1.
  pose proof (swap_weights_same_logger (sovits_weights d) (gpt_weights d) w)
    as Hl1.
  pose proof (swap_weights_calls (sovits_weights d) (gpt_weights d) w) as Hc1.
  rewrite Hswap in Hfs1, Ht1, Hl1, Hc1. unfold same in *. simpl in *.
  split; [|split].
  - unfold predict, try_except_KeyError, try_except.
    rewrite (bind_inr _ _ _ _ _ Hres), (bind_inl _ _ _ _ _ Hswap).
    now destruct x.
  - unfold batch_predict, try_except_KeyError, try_except.
    rewrite (bind_inr _ _ _ _ _ Hres), (bind_inl _ _ _ _ _ Hswap).
    now destruct x.
  - now repeat split.
Qed.

Lemma join_absolute a b : startswith_sep b = true -> join a b = b.
Proof. intros Hb. unfold join. now rewrite Hb. Qed.

(** X10.  A row whose filename starts with [/] is not kept under the
    temporary directory: its artifact path is the filename itself, and when
    the rows went through a WAV file is at that path, whatever was there
    before. *)
Theorem absolute_filename_leaves_tempdir d rows w paths w' i txt filename :
  batch_loop d rows [] w = (inr paths, w') ->
  rows !! i = Some (txt, filename) ->
  startswith_sep filename = true ->
  paths !! i = Some filename /\
  exists out, fs w' !! filename = Some (File (Wav out.1 out.2)).
Proof.
  intros Hloop Hrow Habs.
  destruct (batch_loop_inr_inv _ _ _ _ _ _ Hloop)
    as (outs & Houts & Hpaths & Hfs & _ & _).
  simpl in Hpaths.
  assert (paths !! i = Some filename) as Hi.
  { rewrite Hpaths, !list_lookup_fmap, Hrow. simpl.
    now rewrite join_absolute. }
  split; [exact Hi|].
  pose proof (engine_outputs_length _ _ _ _ _ Houts) as Hlen.
  assert (length outs = length paths) as Hlen'
    by (rewrite Hpaths, !length_fmap; now rewrite length_fmap in Hlen).
  apply list_elem_of_lookup_2 in Hi.
  rewrite <- Hpaths in Hfs.
  destruct (last_write_zip_Some _ _ _ Hlen' Hi) as [out Hout].
  exists out. now rewrite Hfs, write_all_lookup, Hout.
Qed.

Lemma batch_loop_calls_exact d rows acc w paths w' :
  batch_loop d rows acc w = (inr paths, w') ->
  calls w' = calls w ++ fmap Infer (omap (row_args d) rows.*1) /\
  length (omap (row_args d) rows.*1) = length rows.
Proof.
  revert acc w. induction rows as [|[txt filename] rest IH]; intros acc w.
  - simpl. intros [= <- <-]. now rewrite app_nil_r.
  - cbn [batch_loop]. intros Hloop.
    apply bind_inr_inv in Hloop as (p & w1 & Hrow & Hloop).
    apply synth_row_inr_inv in Hrow
      as (out & wg & Hgen & _ & _ & _ & Hcalls & _ & _).
    apply generate_inr_inv in Hgen as (args & Hargs & _ & Hwg).
    apply (f_equal calls) in Hwg. simpl in Hwg.
    apply IH in Hloop as (Hcs & Hlen).
    rewrite fmap_cons. cbn [omap list_omap fst]. rewrite Hargs.
    split.
    + rewrite Hcs, Hcalls, Hwg, <- app_assoc. reflexivity.
    + simpl. now rewrite Hlen.
Qed.

Lemma length_omap_le {A B} (g : A -> option B) (l : list A) :
  (length (omap g l) <= length l)%nat.
Proof.
  induction l as [|a l IH]; [reflexivity|].
  cbn [omap list_omap]. destruct (g a); simpl; lia.
Qed.

(** X11.  In an answered batch the engine was called exactly as follows
    after the request came in: the weight loads the path comparison demands,
    then one [infer] call per row, in row order, each with the text of its
    row and otherwise the same arguments. *)
Theorem batch_calls_one_infer_per_row data rows w path media w' :
  batch_predict data rows w = (inr (FileResponse path media), w') ->
  exists d,
    resolve_character data w = (inr d, w) /\
    calls w' =
      calls w ++
      expected_loads (sovits_weights d) (gpt_weights d) (tts_inference w) ++
      fmap Infer (omap (row_args d) rows.*1) /\
    length (omap (row_args d) rows.*1) = length rows /\
    (forall i args, omap (row_args d) rows.*1 !! i = Some args ->
                    rows.*1 !! i = Some (arg_text args)).
Proof.
  intros Hrun.
  destruct (batch_answered _ _ _ _ _ _ Hrun)
    as (d & w1 & w2 & paths & outs & name & Hres & Hswap & Hloop & _ &
        _ & _ & _ & _ & _ & _ & Hcalls & _).
  pose proof (swap_weights_calls (sovits_weights d) (gpt_weights d) w) as Hc1.
  rewrite Hswap in Hc1. simpl in Hc1.
  destruct (batch_loop_calls_exact _ _ _ _ _ _ Hloop) as (Hc2 & Hlen).
  exists d. split; [exact Hres|]. split; [|split; [exact Hlen|]].
  - now rewrite Hcalls, Hc2, Hc1, <- app_assoc.
  - clear -Hlen. rewrite <- (length_fmap fst rows) in Hlen.
    revert Hlen. generalize (rows.*1). clear rows.
    intros texts. induction texts as [|txt texts IH]; intros Hlen i args Hi.
    + destruct i; discriminate.
    + cbn [omap list_omap] in *.
      destruct (row_args d txt) as [a|] eqn:Ha.
      * simpl in Hlen. destruct i as [|i]; simpl in Hi.
        -- injection Hi as <-. simpl. f_equal.
           unfold row_args in Ha.
           destruct (prompt_language d); [|discriminate].
           destruct (LANG_DICT !! _); [|discriminate].
           destruct (LANG_DICT !! _); [|discriminate].
           now injection Ha as <-.
        -- simpl. apply IH; [lia|assumption].
      * pose proof (length_omap_le (row_args d) texts) as Hle. simpl in Hlen. lia.
Qed.

End HandlerFacts.

(** ** Facts about the paths *)

Section PathFacts.
Import PosixPath.

Lemma rsplit_slash_free f :
  slash_free f = true -> rsplit f = (EmptyString, f).
Proof.
  induction f as [|c r IH]; [reflexivity|]. simpl.
  intros Hf. apply andb_true_iff in Hf as [Hc Hr].
  rewrite (IH Hr). apply negb_true_iff in Hc. now rewrite Hc.
Qed.

Lemma slash_free_not_absolute f :
  slash_free f = true -> startswith_sep f = false.
Proof.
  destruct f as [|c r]; [reflexivity|]. simpl.
  intros Hf. apply andb_true_iff in Hf as [Hc _]. now apply negb_true_iff.
Qed.

(** After a directory part that ends in [/], a name without [/] is the
    whole last component. *)
Lemma rsplit_after_sep a f :
  endswith_sep a = true -> slash_free f = true ->
  rsplit (a +:+ f) = (a, f).
Proof.
  intros Ha Hf. induction a as [|c r IH]; [discriminate|].
  destruct r as [|c' r'].
  - change (String c EmptyString +:+ f) with (String c f).
    simpl in Ha. cbn [rsplit]. rewrite (rsplit_slash_free _ Hf).
    now rewrite Ha.
  - change (String c (String c' r') +:+ f)
      with (String c (String c' r' +:+ f)).
    cbn [rsplit]. cbn [rsplit] in IH. rewrite IH; [reflexivity|exact Ha].
Qed.

Lemma endswith_sep_snoc a : endswith_sep (a +:+ "/") = true.
Proof.
  induction a as [|c r IH]; [reflexivity|].
  change (String c r +:+ "/") with (String c (r +:+ "/")).
  destruct r as [|c' r']; [reflexivity|]. exact IH.
Qed.

Lemma append_assoc_sep a f : a +:+ "/" +:+ f = (a +:+ "/") +:+ f.
Proof.
  induction a as [|c r IH]; [reflexivity|].
  change (String c r +:+ "/" +:+ f) with (String c (r +:+ "/" +:+ f)).
  change ((String c r +:+ "/") +:+ f) with (String c ((r +:+ "/") +:+ f)).
  now rewrite IH.
Qed.

Lemma basename_join a f :
  slash_free f = true -> basename (join a f) = f.
Proof.
  intros Hf. unfold basename, join.
  rewrite (slash_free_not_absolute _ Hf).
  destruct a as [|c r].
  - now rewrite (rsplit_slash_free _ Hf).
  - destruct (endswith_sep (String c r)) eqn:Hend.
    + now rewrite (rsplit_after_sep _ _ Hend Hf).
    + rewrite append_assoc_sep.
      now rewrite (rsplit_after_sep _ _ (endswith_sep_snoc _) Hf).
Qed.

End PathFacts.

(** ** Facts about the web UI *)

Section WebUIFacts.
Context `{!TTSInference} `{!Host}.
Import PosixPath.
Local Open Scope py_scope.
Implicit Types (data : TTSModelRequest) (w : world).

Lemma zipped_names paths outs : (zipped paths outs).*1 = fmap basename paths.
Proof.
  unfold zipped. generalize (zip paths outs). intros l.
  induction paths as [|p paths IH]; [reflexivity|].
  rewrite !fmap_cons. simpl. f_equal. exact IH.
Qed.

Lemma basename_join_all (filenames : list string) :
  Forall (fun filename => slash_free filename = true) filenames ->
  fmap basename (fmap (join gettempdir) filenames) = filenames.
Proof.
  induction 1 as [|filename rest Hf _ IH]; [reflexivity|].
  rewrite !fmap_cons, IH. now rewrite basename_join.
Qed.

(** X12.  When no filename of the sheet contains a [/], the entries of
    the zip of an answered batch are named exactly by the filename column,
    in row order. *)
Theorem zip_entries_named_by_filename_column data rows w path media w' :
  batch_predict data rows w = (inr (FileResponse path media), w') ->
  Forall (fun filename => slash_free filename = true) rows.*2 ->
  exists entries,
    fs w' !! path = Some (File (Zip entries)) /\
    entries.*1 = rows.*2.
Proof.
  intros Hrun Hfree.
  destruct (batch_answered _ _ _ _ _ _ Hrun)
    as (d & w1 & w2 & paths & outs & name & _ & _ & _ & _ &
        Hpaths & _ & _ & _ & Hfs & _).
  exists (zipped paths outs). split.
  - rewrite Hfs. apply lookup_insert_eq.
  - rewrite zipped_names, Hpaths. now apply basename_join_all.
Qed.

(** The steps of [get_tts_wav] after the two table lookups. *)
Lemma get_tts_wav_after_lookups ss sn gs gn ra pt pl txt tl cut k p t free
    sovits gpt w :
  model_path sovits_models_info ss sn w = (inr sovits, w) ->
  model_path gpt_models_info gs gn w = (inr gpt, w) ->
  get_tts_wav ss sn gs gn ra pt pl txt tl cut k p t free w =
  bind (swap_weights (Some sovits) (Some gpt))
    (fun _ => infer_call ra pt pl txt tl cut k p t free) w.
Proof.
  intros Hs Hg. unfold get_tts_wav.
  now rewrite (bind_inr _ _ _ _ _ Hs), (bind_inr _ _ _ _ _ Hg).
Qed.

(** X13.  [get_tts_wav] hands on what the engine gives: once the tables
    and [LANG_DICT] have the keys and the weights are swapped, its result is
    the result of the one [infer] call, be it the (sample rate, samples)
    pair or an exception, which is raised to the caller as it is.  Nothing
    is logged and no file is written. *)
Theorem get_tts_wav_hands_on_engine_result
    ss sn gs gn ra pt ptag txt ttag cut k p t free sovits gpt w w1
    planguage tlanguage r (eng : engine) :
  model_path sovits_models_info ss sn w = (inr sovits, w) ->
  model_path gpt_models_info gs gn w = (inr gpt, w) ->
  swap_weights (Some sovits) (Some gpt) w = (inr tt, w1) ->
  LANG_DICT !! ptag = Some planguage ->
  LANG_DICT !! ttag = Some tlanguage ->
  infer {| arg_ref_wav_path := ra; arg_prompt_text := pt;
           arg_prompt_language := planguage; arg_text := txt;
           arg_text_language := tlanguage; arg_how_to_cut := cut;
           arg_top_k := k; arg_top_p := p; arg_temperature := t;
           arg_ref_free := free |} (tts_inference w1) = (r, eng) ->
  get_tts_wav ss sn gs gn ra pt (Some ptag) txt (Some ttag) cut k p t free w =
    (r, {| fs := fs w; tts_inference := eng;
           calls := calls w1 ++
             [Infer {| arg_ref_wav_path := ra; arg_prompt_text := pt;
                       arg_prompt_language := planguage; arg_text := txt;
                       arg_text_language := tlanguage; arg_how_to_cut := cut;
                       arg_top_k := k; arg_top_p := p; arg_temperature := t;
                       arg_ref_free := free |}];
           root_logger := root_logger w;
           background_tasks := background_tasks w;
           names_drawn := names_drawn w1 |}).
Proof.
  intros Hs Hg Hswap Hp Ht Hinfer.
  rewrite (get_tts_wav_after_lookups _ _ _ _ _ _ _ _ _ _ _ _ _ _ _ _ _ Hs Hg).
  rewrite (bind_inr _ _ _ _ _ Hswap).
  pose proof (swap_weights_same_fs (Some sovits) (Some gpt) w) as Hfs1.
  pose proof (swap_weights_same_tasks (Some sovits) (Some gpt) w) as Ht1.
  pose proof (swap_weights_same_logger (Some sovits) (Some gpt) w) as Hl1.
  rewrite Hswap in Hfs1, Ht1, Hl1. unfold same in *. simpl in *.
  unfold infer_call, bind, getitem, ret, on_engine. rewrite Hp, Ht. simpl.
  rewrite Hinfer, Hfs1, Ht1, Hl1. now destruct r.
Qed.

(** X14.  Unlike the API handlers, [get_tts_wav] does not catch the
    lookup of a language tag: a tag that is not a key of [LANG_DICT] raises
    [KeyError] with that tag to the caller, after the weights were swapped
    and without a call of [infer] or a log record. *)
Theorem get_tts_wav_raises_language_KeyError
    ss sn gs gn ra pt pl txt tl cut k p t free sovits gpt w w1 key :
  model_path sovits_models_info ss sn w = (inr sovits, w) ->
  model_path gpt_models_info gs gn w = (inr gpt, w) ->
  swap_weights (Some sovits) (Some gpt) w = (inr tt, w1) ->
  match pl with
  | Some ptag =>
      match LANG_DICT !! ptag with
      | None => key = pl
      | Some _ =>
          key = tl /\
          match tl with
          | Some ttag => LANG_DICT !! ttag = None
          | None => True
          end
      end
  | None => key = None
  end ->
  get_tts_wav ss sn gs gn ra pt pl txt tl cut k p t free w =
    (inl (KeyError key), w1).
Proof.
  intros Hs Hg Hswap Hkey.
  rewrite (get_tts_wav_after_lookups _ _ _ _ _ _ _ _ _ _ _ _ _ _ _ _ _ Hs Hg).
  rewrite (bind_inr _ _ _ _ _ Hswap).
  unfold infer_call, bind, getitem, ret, raise.
  destruct pl as [ptag|]; [|now subst].
  destruct (LANG_DICT !! ptag); [|now subst]. simpl.
  destruct Hkey as [-> Htl].
  destruct tl as [ttag|]; [|reflexivity]. now rewrite Htl.
Qed.

(** *** The model tables *)

Lemma lookup_key_list_to_map {V} (d : WebUI.odict V) k :
  (list_to_map d : gmap string V) !! k = WebUI.lookup_key d k.
Proof.
  induction d as [|[k' v] d IH]; [reflexivity|].
  cbn [list_to_map foldr WebUI.lookup_key]. simpl.
  destruct (decide (k' = k)) as [->|Hne].
  - apply lookup_insert_eq.
  - now rewrite lookup_insert_ne.
Qed.

Lemma table_lookup (models_info : WebUI.odict (WebUI.odict string)) speaker :
  WebUI.table models_info !! speaker =
  (list_to_map : _ -> gmap string string) <$>
    WebUI.lookup_key models_info speaker.
Proof.
  unfold WebUI.table. induction models_info as [|[s ms] rest IH];
    [reflexivity|].
  rewrite fmap_cons. cbn [list_to_map foldr WebUI.lookup_key]. simpl.
  destruct (decide (s = speaker)) as [->|Hne].
  - now rewrite lookup_insert_eq.
  - now rewrite lookup_insert_ne.
Qed.

Lemma lookup_key_None {V} (d : WebUI.odict V) k :
  k ∉ WebUI.keys d -> WebUI.lookup_key d k = None.
Proof.
  induction d as [|[k' v] d IH]; [reflexivity|].
  unfold WebUI.keys. rewrite fmap_cons. simpl. intros Hnot.
  apply not_elem_of_cons in Hnot as [Hne Hnot].
  rewrite decide_False by congruence. now apply IH.
Qed.

Lemma lookup_key_head {V} (d : WebUI.odict V) k v rest :
  d = (k, v) :: rest -> WebUI.lookup_key d k = Some v.
Proof. intros ->. simpl. now rewrite decide_True. Qed.

Lemma lookup_key_app_r {V} (pre d : WebUI.odict V) k :
  k ∉ WebUI.keys pre ->
  WebUI.lookup_key (pre ++ d) k = WebUI.lookup_key d k.
Proof.
  induction pre as [|[k' v] pre IH]; [reflexivity|].
  unfold WebUI.keys. rewrite fmap_cons. simpl. intros Hnot.
  apply not_elem_of_cons in Hnot as [Hne Hnot].
  rewrite decide_False by congruence. now apply IH.
Qed.

(** On a table without repeated speakers the loop over all speakers
    appends the models of every speaker, in the order of the table. *)
Lemma extend_all_suffix (pre suf : WebUI.odict (WebUI.odict string)) acc :
  NoDup (WebUI.keys (pre ++ suf)) ->
  WebUI.extend_all (pre ++ suf) (WebUI.keys suf) acc =
  inr (acc ++ mjoin (WebUI.keys <$> suf.*2)).
Proof.
  revert pre acc. induction suf as [|[s ms] suf IH]; intros pre acc Hnd.
  - simpl. now rewrite app_nil_r.
  - change (WebUI.keys ((s, ms) :: suf)) with (s :: WebUI.keys suf).
    cbn [WebUI.extend_all WebUI.odict_getitem].
    assert (s ∉ WebUI.keys pre) as Hs.
    { unfold WebUI.keys in *. rewrite fmap_app, fmap_cons in Hnd.
      apply NoDup_app in Hnd as (_ & Hdisj & _). intros Hin.
      apply (Hdisj s Hin). apply list_elem_of_here. }
    rewrite (lookup_key_app_r _ _ _ Hs). cbn [WebUI.lookup_key].
    rewrite decide_True by reflexivity.
    replace (pre ++ (s, ms) :: suf) with ((pre ++ [(s, ms)]) ++ suf)
      by now rewrite <- app_assoc.
    rewrite IH.
    + rewrite !fmap_cons. simpl. now rewrite <- app_assoc.
    + now rewrite <- app_assoc.
Qed.

(** X15.  For a speaker of the table, the dropdown [select_model_func]
    returns offers exactly the models of that speaker, in the order of the
    table, and selects the first; and the selected model is one that the
    table lookups of [get_tts_wav] find for this speaker. *)
Theorem selected_model_is_in_the_table models_info speaker dropdown w :
  speaker <> "All speakers" ->
  WebUI.select_model_func (Some speaker) models_info = inr dropdown ->
  exists models path,
    WebUI.lookup_key models_info speaker = Some models /\
    WebUI.choices dropdown = WebUI.keys models /\
    WebUI.choices dropdown !! 0%nat = Some (WebUI.value dropdown) /\
    model_path (WebUI.table models_info) (Some speaker)
      (Some (WebUI.value dropdown)) w = (inr path, w).
Proof.
  intros Hne. unfold WebUI.select_model_func.
  rewrite decide_False by congruence. cbn [WebUI.odict_getitem].
  destruct (WebUI.lookup_key models_info speaker) as [models|] eqn:Hsp;
    [|discriminate].
  destruct models as [|[m path] models]; [discriminate|].
  unfold WebUI.keys at 1. rewrite fmap_cons.
  intros [= <-]. exists ((m, path) :: models), path. simpl.
  split; [reflexivity|]. split; [reflexivity|]. split; [reflexivity|].
  unfold model_path, bind, getitem, ret.
  rewrite table_lookup, Hsp. simpl.
  now rewrite lookup_insert_eq.
Qed.

(** X16.  For the choice [All speakers] on a table without repeated
    speakers, [select_model_func] offers the models of all speakers, speaker
    after speaker in the order of the table, and selects the first of them;
    when no speaker has a model (or the table is empty) it raises
    [IndexError]. *)
Theorem all_speakers_offers_every_model models_info :
  NoDup (WebUI.keys models_info) ->
  WebUI.select_model_func (Some "All speakers") models_info =
    match mjoin (WebUI.keys <$> models_info.*2) with
    | [] => inl (OtherException "IndexError" "list index out of range")
    | first :: rest =>
        inr {| WebUI.choices := first :: rest;
               WebUI.label := "选择角色对应模型";
               WebUI.info := "Models to choose";
               WebUI.value := first;
               WebUI.visible := true;
               WebUI.interactive := true |}
    end.
Proof.
  intros Hnd. unfold WebUI.select_model_func.
  rewrite decide_True by reflexivity.
  pose proof (extend_all_suffix [] models_info [] Hnd) as Hall.
  rewrite !app_nil_l in Hall. rewrite Hall.
  now destruct (mjoin (WebUI.keys <$> models_info.*2)).
Qed.

(** X17.  The errors of [select_model_func] for a name other than
    [All speakers]: a name that is not a speaker of the table raises
    [KeyError] with that name, no selection raises [KeyError(None)], and a
    speaker without any model raises [IndexError]. *)
Theorem select_model_func_errors models_info speaker :
  speaker <> "All speakers" ->
  (WebUI.lookup_key models_info speaker = None ->
   WebUI.select_model_func (Some speaker) models_info =
     inl (KeyError (Some speaker))) /\
  (WebUI.lookup_key models_info speaker = Some [] ->
   WebUI.select_model_func (Some speaker) models_info =
     inl (OtherException "IndexError" "list index out of range")) /\
  WebUI.select_model_func None models_info = inl (KeyError None).
Proof.
  intros Hne. unfold WebUI.select_model_func.
  rewrite decide_False by congruence. cbn [WebUI.odict_getitem].
  split; [|split].
  - now intros ->.
  - now intros ->.
  - reflexivity.
Qed.

(** X18.  The choice [All speakers], which the UI offers in both speaker
    lists, is not a speaker of the table: with it, [get_tts_wav] raises
    [KeyError('All speakers')] at its first table lookup, whatever model
    is passed along (so also for the model [select_model_func] selected
    for this choice), before any weight is loaded or [infer] is called. *)
Theorem all_speakers_choice_fails_in_get_tts_wav
    models_info sn gs gn ra pt pl txt tl cut k p t free w :
  sovits_models_info = WebUI.table models_info ->
  "All speakers" ∉ WebUI.keys models_info ->
  get_tts_wav (Some "All speakers") sn gs gn ra pt pl txt tl cut k p t free w =
    (inl (KeyError (Some "All speakers")), w).
Proof.
  intros Htable Hnot. unfold get_tts_wav.
  apply bind_inl. unfold model_path. apply bind_inl.
  unfold getitem, raise.
  now rewrite Htable, table_lookup, (lookup_key_None _ _ Hnot).
Qed.

End WebUIFacts.

(** *** The refresh button *)

Section RefreshFacts.
Context {S V : Type}.
Implicit Types (st : WebUI.ui (S := S) (V := V)).
Implicit Types (rounds : list (WebUI.handler (S := S) *
                               (string * WebUI.refreshed_arg (S := S) (V := V)))).

Lemma on_handlers_components {A} (m : M S A) st r st' :
  WebUI.on_handlers m st = (r, st') ->
  WebUI.components st' = WebUI.components st.
Proof.
  unfold WebUI.on_handlers.
  destruct (m (WebUI.handlers_state st)) as [r0 s]. now intros [= _ <-].
Qed.

Lemma call_method_components (h : WebUI.handler (S := S)) name st r st' :
  WebUI.call_method h name st = (r, st') ->
  WebUI.components st' = WebUI.components st.
Proof.
  unfold WebUI.call_method. destruct (h !! name).
  - apply on_handlers_components.
  - unfold raise. now intros [= _ <-].
Qed.

Lemma refreshed_components (a : WebUI.refreshed_arg (S := S) (V := V))
    st r st' :
  match a with
  | WebUI.Callable f => WebUI.on_handlers f
  | WebUI.Given d => ret d
  end st = (r, st') ->
  WebUI.components st' = WebUI.components st.
Proof.
  destruct a.
  - apply on_handlers_components.
  - unfold ret. now intros [= _ <-].
Qed.

(** One round of the loop, when the loop returns. *)
Lemma refresh_loop_cons_inv name h c a rounds o st r st' :
  WebUI.refresh_loop name ((h, (c, a)) :: rounds) o st = (inr r, st') ->
  exists kw st1 st2,
    WebUI.components st1 = WebUI.components st /\
    WebUI.setattrs c kw st1 = (inr tt, st2) /\
    WebUI.refresh_loop name rounds (Some {[c := kw]}) st2 = (inr r, st').
Proof.
  cbn [WebUI.refresh_loop]. intros Hrun.
  apply bind_inr_inv in Hrun as ([] & sa & Hcall & Hrun).
  apply bind_inr_inv in Hrun as (kw & sb & Hargs & Hrun).
  apply bind_inr_inv in Hrun as ([] & sc & Hset & Hrun).
  exists kw, sb, sc. split; [|split].
  - apply refreshed_components in Hargs.
    apply call_method_components in Hcall. congruence.
  - exact Hset.
  - now rewrite insert_empty in Hrun.
Qed.

Lemma refresh_loop_inr_inv name rounds o st r st' :
  WebUI.refresh_loop name rounds o st = (inr r, st') ->
  match last rounds with
  | None => r = o /\ st' = st
  | Some (h, (c, a)) =>
      exists kw attrs,
        r = Some {[c := kw]} /\
        WebUI.components st' !! c = Some attrs /\ kw ⊆ attrs
  end.
Proof.
  revert o st. induction rounds as [|[h [c a]] rounds IH]; intros o st Hrun.
  - simpl in *. unfold ret in Hrun. now injection Hrun as <- <-.
  - apply refresh_loop_cons_inv in Hrun as (kw & st1 & st2 & _ & Hset & Hrun).
    specialize (IH _ _ Hrun). destruct rounds as [|round rounds].
    + simpl in IH |- *. destruct IH as [-> ->].
      unfold WebUI.setattrs, modify in Hset. injection Hset as <-.
      eexists kw, _. split; [reflexivity|]. cbn [WebUI.components].
      split; [apply lookup_insert_eq|].
      apply (map_union_subseteq_l (M := gmap string)).
    + rewrite last_cons.
      destruct (last (round :: rounds)) as [[h' [c' a']]|] eqn:Hlast;
        [exact IH|].
      apply last_None in Hlast. discriminate.
Qed.

Lemma refresh_loop_sets_components name rounds o st r st' c :
  WebUI.refresh_loop name rounds o st = (inr r, st') ->
  c ∈ (rounds.*2).*1 \/ is_Some (WebUI.components st !! c) ->
  is_Some (WebUI.components st' !! c).
Proof.
  revert o st. induction rounds as [|[h [c' a]] rounds IH]; intros o st Hrun Hc.
  - simpl in Hrun. unfold ret in Hrun. injection Hrun as _ <-.
    destruct Hc as [Hc|Hc]; [|exact Hc]. now apply elem_of_nil in Hc.
  - apply refresh_loop_cons_inv in Hrun as (kw & st1 & st2 & Heq & Hset & Hrun).
    apply (IH _ _ Hrun).
    unfold WebUI.setattrs, modify in Hset. injection Hset as <-.
    cbn [WebUI.components]. rewrite Heq.
    rewrite !fmap_cons in Hc. cbn [fst snd] in Hc.
    destruct (decide (c = c')) as [->|Hne].
    + right. rewrite lookup_insert_eq. eauto.
    + rewrite lookup_insert_ne by congruence.
      destruct Hc as [Hc|Hc]; [|now right].
      apply elem_of_cons in Hc as [Hc|Hc]; [congruence|now left].
Qed.

(** X19.  When [refresh] returns, every zipped component has had its
    attributes set, but the dictionary of updates it returns has exactly
    one key, the last zipped component: [updates] is emptied in every
    round, so the updates of the earlier components are dropped.  The
    update of the last component holds attributes that the component now
    has. *)
Theorem refresh_returns_only_the_last_update
    (handlers : list (WebUI.handler (S := S))) refresh_components name
    (refreshed_args : list (WebUI.refreshed_arg (S := S) (V := V)))
    st updates st' :
  WebUI.refresh handlers refresh_components name refreshed_args st =
    (inr updates, st') ->
  (exists h c a kw attrs,
     last (zip handlers (zip refresh_components refreshed_args)) =
       Some (h, (c, a)) /\
     updates = {[c := kw]} /\
     WebUI.components st' !! c = Some attrs /\ kw ⊆ attrs) /\
  (forall c,
     c ∈ ((zip handlers (zip refresh_components refreshed_args)).*2).*1 ->
     is_Some (WebUI.components st' !! c)).
Proof.
  unfold WebUI.refresh. intros Hrun.
  apply bind_inr_inv in Hrun as (o & st1 & Hloop & Hret).
  destruct o as [u|]; [|discriminate].
  unfold ret in Hret. injection Hret as -> ->. split.
  - apply refresh_loop_inr_inv in Hloop.
    destruct (last _) as [[h [c a]]|]; [|now destruct Hloop].
    destruct Hloop as (kw & attrs & [= ->] & Hc & Hsub).
    now exists h, c, a, kw, attrs.
  - intros c Hc. apply (refresh_loop_sets_components _ _ _ _ _ _ _ Hloop).
    now left.
Qed.

(** X20.  With no handler, no component or no argument to refresh, the
    loop of [refresh] runs no round, and [return updates] raises
    [UnboundLocalError] with nothing changed. *)
Theorem refresh_without_rounds_raises
    (handlers : list (WebUI.handler (S := S))) refresh_components name
    (refreshed_args : list (WebUI.refreshed_arg (S := S) (V := V))) st :
  handlers = [] \/ refresh_components = [] \/ refreshed_args = [] ->
  WebUI.refresh handlers refresh_components name refreshed_args st =
    (inl (UnboundLocalError "updates"), st).
Proof.
  intros Hempty.
  assert (zip handlers (zip refresh_components refreshed_args) = []) as Hz.
  { destruct Hempty as [->|[->| ->]]; [reflexivity| |].
    - now destruct handlers.
    - destruct handlers; [reflexivity|]. now destruct refresh_components. }
  unfold WebUI.refresh. now rewrite Hz.
Qed.

End RefreshFacts.

(** *** When the handler answers *)

Section AnswerFacts.
Context `{TTSInference} `{Host}.



End AnswerFacts.

(** ** More runs of the demo deployment *)

Section MoreDemoRuns.
Import Demo DemoUI.
#[local] Existing Instance demo_engine.
#[local] Existing Instance demo_host.


(** X2, run: one request for the character [demo]. *)
Lemma predict_fresh_wav_witness :
  predict (request (Some "demo") "hi" "中文" None) w_demo =
    (inr (FileResponse "/tmp/tmp0.wav" "audio/wav"),
     run (predict (request (Some "demo") "hi" "中文" None)) w_demo) /\
  exists d w1 args out,
    resolve_character (request (Some "demo") "hi" "中文" None) w_demo =
      (inr d, w_demo) /\
    swap_weights (sovits_weights d) (gpt_weights d) w_demo = (inr tt, w1) /\
    row_args d (text d) = Some args /\
    infer args (tts_inference w1) =
      (inr out,
       tts_inference
         (run (predict (request (Some "demo") "hi" "中文" None)) w_demo)) /\
    "audio/wav" = "audio/wav" /\
    fs w_demo !! "/tmp/tmp0.wav" = None /\
    fs (run (predict (request (Some "demo") "hi" "中文" None)) w_demo) =
      <["/tmp/tmp0.wav" := File (Wav out.1 out.2)]> (fs w_demo) /\
    background_tasks
      (run (predict (request (Some "demo") "hi" "中文" None)) w_demo) =
      background_tasks w_demo ++ [RemoveTempFile "/tmp/tmp0.wav"] /\
    calls (run (predict (request (Some "demo") "hi" "中文" None)) w_demo) =
      calls w1 ++ [Infer args] /\
    root_logger
      (run (predict (request (Some "demo") "hi" "中文" None)) w_demo) =
      root_logger w_demo.
Proof.
  split; [vm_compute; reflexivity|].
  apply (predict_answers_with_fresh_wav
           (request (Some "demo") "hi" "中文" None) w_demo
           "/tmp/tmp0.wav" "audio/wav"
           (run (predict (request (Some "demo") "hi" "中文" None)) w_demo)).
  vm_compute; reflexivity.
Defined.

(** X3, run: the cleanup after that request. *)
Lemma predict_cleanup_witness :
  predict (request (Some "demo") "hi" "中文" None) w_demo =
    (inr (FileResponse "/tmp/tmp0.wav" "audio/wav"),
     run (predict (request (Some "demo") "hi" "中文" None)) w_demo) /\
  exists added,
    background_tasks
      (run (predict (request (Some "demo") "hi" "中文" None)) w_demo) =
      background_tasks w_demo ++ added /\
    run_tasks added
      (fs (run (predict (request (Some "demo") "hi" "中文" None)) w_demo)) =
      (inr tt, fs w_demo).
Proof.
  split; [vm_compute; reflexivity|].
  apply (predict_cleanup_restores_filesystem
           (request (Some "demo") "hi" "中文" None) w_demo
           "/tmp/tmp0.wav" "audio/wav"
           (run (predict (request (Some "demo") "hi" "中文" None)) w_demo)).
  vm_compute; reflexivity.
Defined.






(** X10, run: a sheet whose filename is an absolute path. *)
Lemma absolute_filename_witness :
  batch_loop (resolved "" "中文" None) rows_srv [] w_srv =
    (inr ["/srv/a.wav"],
     run (batch_loop (resolved "" "中文" None) rows_srv []) w_srv) /\
  rows_srv !! 0%nat = Some ("a", "/srv/a.wav") /\
  PosixPath.startswith_sep "/srv/a.wav" = true /\
  ["/srv/a.wav"] !! 0%nat = Some "/srv/a.wav" /\
  exists out,
    fs (run (batch_loop (resolved "" "中文" None) rows_srv []) w_srv)
      !! "/srv/a.wav" = Some (File (Wav out.1 out.2)).
Proof.
  do 3 (split; [vm_compute; reflexivity|]).
  apply (absolute_filename_leaves_tempdir (resolved "" "中文" None) rows_srv
           w_srv ["/srv/a.wav"]
           (run (batch_loop (resolved "" "中文" None) rows_srv []) w_srv)
           0%nat "a" "/srv/a.wav");
    vm_compute; reflexivity.
Defined.

(** X11, run: the engine calls of a batch on a fresh server. *)
Lemma batch_calls_witness :
  batch_predict request_zip rows_ab w0 =
    (inr (FileResponse "/tmp/out.zip" "application/zip"),
     run (batch_predict request_zip rows_ab) w0) /\
  exists d,
    resolve_character request_zip w0 = (inr d, w0) /\
    calls (run (batch_predict request_zip rows_ab) w0) =
      calls w0 ++
      expected_loads (sovits_weights d) (gpt_weights d) (tts_inference w0) ++
      fmap Infer (omap (row_args d) rows_ab.*1) /\
    length (omap (row_args d) rows_ab.*1) = length rows_ab /\
    (forall i args, omap (row_args d) rows_ab.*1 !! i = Some args ->
                    rows_ab.*1 !! i = Some (arg_text args)).
Proof.
  split; [vm_compute; reflexivity|].
  apply (batch_calls_one_infer_per_row request_zip rows_ab w0
           "/tmp/out.zip" "application/zip"
           (run (batch_predict request_zip rows_ab) w0)).
  vm_compute; reflexivity.
Defined.

(** X12, run: the names in the zip of the two rows. *)
Lemma zip_entries_witness :
  batch_predict request_zip rows_ab w_demo =
    (inr (FileResponse "/tmp/out.zip" "application/zip"),
     run (batch_predict request_zip rows_ab) w_demo) /\
  Forall (fun filename => slash_free filename = true) rows_ab.*2 /\
  exists entries,
    fs (run (batch_predict request_zip rows_ab) w_demo) !! "/tmp/out.zip" =
      Some (File (Zip entries)) /\
    entries.*1 = rows_ab.*2.
Proof.
  split; [vm_compute; reflexivity|].
  assert (Forall (fun filename => slash_free filename = true) rows_ab.*2)
    as Hfree by (repeat constructor).
  split; [exact Hfree|].
  apply (zip_entries_named_by_filename_column request_zip rows_ab w_demo
           "/tmp/out.zip" "application/zip"
           (run (batch_predict request_zip rows_ab) w_demo));
    [vm_compute; reflexivity | exact Hfree].
Defined.

(** X13, run: a synthesis from the web UI. *)
Lemma get_tts_wav_witness :
  model_path sovits_models_info (Some "demo") (Some "v1") w0 =
    (inr "demo.pth", w0) /\
  model_path gpt_models_info (Some "demo") (Some "v1") w0 =
    (inr "demo.ckpt", w0) /\
  swap_weights (Some "demo.pth") (Some "demo.ckpt") w0 =
    (inr tt, run (swap_weights (Some "demo.pth") (Some "demo.ckpt")) w0) /\
  LANG_DICT !! "英文" = Some "en" /\
  LANG_DICT !! "中文" = Some "all_zh" /\
  infer (args_of "hi")
    (tts_inference (run (swap_weights (Some "demo.pth") (Some "demo.ckpt")) w0)) =
    (inr (32000, [2]), ((Some "demo.pth", Some "demo.ckpt") : pyval * pyval)) /\
  get_tts_wav (Some "demo") (Some "v1") (Some "demo") (Some "v1")
    (Some "examples/demo.wav") (Some "hello") (Some "英文") "hi" (Some "中文")
    (Some "不切") (Some 5) None None (Some false) w0 =
    (inr (32000, [2]),
     {| fs := fs w0;
        tts_inference := ((Some "demo.pth", Some "demo.ckpt") : pyval * pyval);
        calls :=
          calls (run (swap_weights (Some "demo.pth") (Some "demo.ckpt")) w0) ++
          [Infer {| arg_ref_wav_path := Some "examples/demo.wav";
                    arg_prompt_text := Some "hello";
                    arg_prompt_language := "en"; arg_text := "hi";
                    arg_text_language := "all_zh";
                    arg_how_to_cut := Some "不切";
                    arg_top_k := Some 5; arg_top_p := None;
                    arg_temperature := None;
                    arg_ref_free := Some false |}];
        root_logger := root_logger w0;
        background_tasks := background_tasks w0;
        names_drawn :=
          names_drawn
            (run (swap_weights (Some "demo.pth") (Some "demo.ckpt")) w0) |}).
Proof.
  do 6 (split; [vm_compute; reflexivity|]).
  apply (get_tts_wav_hands_on_engine_result
           (Some "demo") (Some "v1") (Some "demo") (Some "v1")
           (Some "examples/demo.wav") (Some "hello") "英文" "hi" "中文"
           (Some "不切") (Some 5) None None (Some false)
           "demo.pth" "demo.ckpt" w0
           (run (swap_weights (Some "demo.pth") (Some "demo.ckpt")) w0)
           "en" "all_zh" (inr (32000, [2]))
           ((Some "demo.pth", Some "demo.ckpt") : pyval * pyval));
    vm_compute; reflexivity.
Defined.

(** X14, run: a reference language the web UI does not offer. *)
Lemma get_tts_wav_language_witness :
  model_path sovits_models_info (Some "demo") (Some "v1") w0 =
    (inr "demo.pth", w0) /\
  model_path gpt_models_info (Some "demo") (Some "v1") w0 =
    (inr "demo.ckpt", w0) /\
  swap_weights (Some "demo.pth") (Some "demo.ckpt") w0 =
    (inr tt, run (swap_weights (Some "demo.pth") (Some "demo.ckpt")) w0) /\
  LANG_DICT !! "klingon" = None /\
  get_tts_wav (Some "demo") (Some "v1") (Some "demo") (Some "v1")
    (Some "examples/demo.wav") (Some "hello") (Some "klingon") "hi"
    (Some "中文") (Some "不切") (Some 5) None None (Some false) w0 =
    (inl (KeyError (Some "klingon")),
     run (swap_weights (Some "demo.pth") (Some "demo.ckpt")) w0).
Proof.
  do 4 (split; [vm_compute; reflexivity|]).
  apply (get_tts_wav_raises_language_KeyError
           (Some "demo") (Some "v1") (Some "demo") (Some "v1")
           (Some "examples/demo.wav") (Some "hello") (Some "klingon") "hi"
           (Some "中文") (Some "不切") (Some 5) None None (Some false)
           "demo.pth" "demo.ckpt" w0
           (run (swap_weights (Some "demo.pth") (Some "demo.ckpt")) w0)
           (Some "klingon"));
    vm_compute; reflexivity.
Defined.


End MoreDemoRuns.

Section PickyRuns.
Import Demo DemoUI.
#[local] Existing Instance picky_engine.
#[local] Existing Instance demo_host.

(** X9, run: a request for weights that the loader does not find. *)
Lemma loader_exception_witness :
  resolve_character request_missing w_picky = (inr request_missing, w_picky) /\
  swap_weights (sovits_weights request_missing) (gpt_weights request_missing)
    w_picky =
    (inl (FileNotFoundError "missing.pth"),
     (swap_weights (sovits_weights request_missing)
        (gpt_weights request_missing) w_picky).2) /\
  predict request_missing w_picky =
    (inl (FileNotFoundError "missing.pth"),
     (swap_weights (sovits_weights request_missing)
        (gpt_weights request_missing) w_picky).2) /\
  batch_predict request_missing rows_ab w_picky =
    (inl (FileNotFoundError "missing.pth"),
     (swap_weights (sovits_weights request_missing)
        (gpt_weights request_missing) w_picky).2) /\
  fs (swap_weights (sovits_weights request_missing)
        (gpt_weights request_missing) w_picky).2 = fs w_picky /\
  root_logger (swap_weights (sovits_weights request_missing)
        (gpt_weights request_missing) w_picky).2 = root_logger w_picky /\
  background_tasks (swap_weights (sovits_weights request_missing)
        (gpt_weights request_missing) w_picky).2 = background_tasks w_picky /\
  calls (swap_weights (sovits_weights request_missing)
        (gpt_weights request_missing) w_picky).2 =
    calls w_picky ++
    expected_loads (sovits_weights request_missing)
      (gpt_weights request_missing) (tts_inference w_picky).
Proof.
  do 2 (split; [vm_compute; reflexivity|]).
  apply (loader_exception_is_not_an_inference_failure
           request_missing request_missing rows_ab w_picky
           (FileNotFoundError "missing.pth")
           (swap_weights (sovits_weights request_missing)
              (gpt_weights request_missing) w_picky).2);
    vm_compute; reflexivity.
Defined.

End PickyRuns.

Section WebUIRuns.
Import Demo DemoUI.
#[local] Existing Instance demo_engine.
#[local] Existing Instance demo_host.

(** X15, run: the speaker [alice] of a table with two speakers. *)
Lemma selected_model_witness :
  "alice" <> "All speakers" /\
  WebUI.select_model_func (Some "alice") models_info =
    inr {| WebUI.choices := ["a1"; "a2"];
           WebUI.label := "选择角色对应模型";
           WebUI.info := "Models to choose";
           WebUI.value := "a1";
           WebUI.visible := true;
           WebUI.interactive := true |} /\
  exists models path,
    WebUI.lookup_key models_info "alice" = Some models /\
    ["a1"; "a2"] = WebUI.keys models /\
    ["a1"; "a2"] !! 0%nat = Some "a1" /\
    model_path (WebUI.table models_info) (Some "alice") (Some "a1") w0 =
      (inr path, w0).
Proof.
  assert ("alice" <> "All speakers") as Hne by discriminate.
  split; [exact Hne|]. split; [vm_compute; reflexivity|].
  apply (selected_model_is_in_the_table models_info "alice"
           {| WebUI.choices := ["a1"; "a2"];
              WebUI.label := "选择角色对应模型";
              WebUI.info := "Models to choose";
              WebUI.value := "a1";
              WebUI.visible := true;
              WebUI.interactive := true |} w0);
    [exact Hne | vm_compute; reflexivity].
Defined.

(** X16, run: all speakers of the same table. *)
Lemma all_speakers_witness :
  NoDup (WebUI.keys models_info) /\
  WebUI.select_model_func (Some "All speakers") models_info =
    match mjoin (WebUI.keys <$> models_info.*2) with
    | [] => inl (OtherException "IndexError" "list index out of range")
    | first :: rest =>
        inr {| WebUI.choices := first :: rest;
               WebUI.label := "选择角色对应模型";
               WebUI.info := "Models to choose";
               WebUI.value := first;
               WebUI.visible := true;
               WebUI.interactive := true |}
    end.
Proof.
  assert (NoDup (WebUI.keys models_info)) as Hnd
    by (apply (bool_decide_unpack _); vm_compute; exact I).
  split; [exact Hnd|].
  apply (all_speakers_offers_every_model models_info Hnd).
Defined.

(** X17, run: a name that is not a speaker of the table, and no
    selection. *)
Lemma select_model_errors_witness :
  "carol" <> "All speakers" /\
  WebUI.lookup_key models_info "carol" = None /\
  WebUI.select_model_func (Some "carol") models_info =
    inl (KeyError (Some "carol")) /\
  WebUI.select_model_func None models_info = inl (KeyError None).
Proof.
  assert ("carol" <> "All speakers") as Hne by discriminate.
  assert (WebUI.lookup_key models_info "carol" = None) as Hnone
    by (vm_compute; reflexivity).
  split; [exact Hne|]. split; [exact Hnone|].
  destruct (select_model_func_errors models_info "carol" Hne)
    as (Hkey & _ & Hno).
  split; [exact (Hkey Hnone) | exact Hno].
Defined.

(** X18, run: [All speakers] with the model that is selected for it, in
    the demo deployment. *)
Lemma all_speakers_choice_witness :
  sovits_models_info = WebUI.table demo_models /\
  ("All speakers" ∉ WebUI.keys demo_models) /\
  WebUI.select_model_func (Some "All speakers") demo_models =
    inr {| WebUI.choices := ["v1"];
           WebUI.label := "选择角色对应模型";
           WebUI.info := "Models to choose";
           WebUI.value := "v1";
           WebUI.visible := true;
           WebUI.interactive := true |} /\
  get_tts_wav (Some "All speakers") (Some "v1") (Some "demo") (Some "v1")
    (Some "examples/demo.wav") (Some "hello") (Some "英文") "hi" (Some "中文")
    (Some "不切") (Some 5) None None (Some false) w0 =
    (inl (KeyError (Some "All speakers")), w0).
Proof.
  assert ("All speakers" ∉ WebUI.keys demo_models) as Hnot
    by (apply (bool_decide_unpack _); vm_compute; exact I).
  split; [vm_compute; reflexivity|]. split; [exact Hnot|].
  split; [vm_compute; reflexivity|].
  apply (all_speakers_choice_fails_in_get_tts_wav demo_models
           (Some "v1") (Some "demo") (Some "v1") (Some "examples/demo.wav")
           (Some "hello") (Some "英文") "hi" (Some "中文") (Some "不切") (Some 5)
           None None (Some false) w0);
    [vm_compute; reflexivity | exact Hnot].
Defined.

(** X19, run: the refresh button of two speaker lists. *)
Lemma refresh_witness :
  WebUI.refresh [counting; counting]
    ["gpt_speakers_list"; "sovits_speakers_list"] "load_models_info"
    [speakers_now; speakers_now] ui0 =
    (inr {[ "sovits_speakers_list" := speakers 2 ]},
     {| WebUI.handlers_state := 2%nat;
        WebUI.components :=
          <["gpt_speakers_list" := speakers 1]>
            {[ "sovits_speakers_list" := speakers 2 ]} |}) /\
  (exists h c a kw attrs,
     last (zip [counting; counting]
             (zip ["gpt_speakers_list"; "sovits_speakers_list"]
                [speakers_now; speakers_now])) = Some (h, (c, a)) /\
     ({[ "sovits_speakers_list" := speakers 2 ]}
        : gmap string (WebUI.kwargs (V := list string))) = {[c := kw]} /\
     WebUI.components
       {| WebUI.handlers_state := 2%nat;
          WebUI.components :=
            <["gpt_speakers_list" := speakers 1]>
              {[ "sovits_speakers_list" := speakers 2 ]} |} !! c =
       Some attrs /\ kw ⊆ attrs) /\
  (forall c,
     c ∈ ((zip [counting; counting]
             (zip ["gpt_speakers_list"; "sovits_speakers_list"]
                [speakers_now; speakers_now])).*2).*1 ->
     is_Some
       (WebUI.components
          {| WebUI.handlers_state := 2%nat;
             WebUI.components :=
               <["gpt_speakers_list" := speakers 1]>
                 {[ "sovits_speakers_list" := speakers 2 ]} |} !! c)).
Proof.
  split; [vm_compute; reflexivity|].
  apply (refresh_returns_only_the_last_update [counting; counting]
           ["gpt_speakers_list"; "sovits_speakers_list"] "load_models_info"
           [speakers_now; speakers_now] ui0
           {[ "sovits_speakers_list" := speakers 2 ]}
           {| WebUI.handlers_state := 2%nat;
              WebUI.components :=
                <["gpt_speakers_list" := speakers 1]>
                  {[ "sovits_speakers_list" := speakers 2 ]} |}).
  vm_compute; reflexivity.
Defined.

(** X20, run: a refresh button without components. *)
Lemma refresh_without_rounds_witness :
  ([counting] = [] \/ ([] : list string) = [] \/ [speakers_now] = []) /\
  WebUI.refresh [counting] [] "load_models_info" [speakers_now] ui0 =
    (inl (UnboundLocalError "updates"), ui0).
Proof.
  assert ([counting] = [] \/ ([] : list string) = [] \/ [speakers_now] = [])
    as Hempty by (right; left; reflexivity).
  split; [exact Hempty|].
  apply (refresh_without_rounds_raises [counting] [] "load_models_info"
           [speakers_now] ui0 Hempty).
Defined.

End WebUIRuns.
